(** * GirlfriendGPT: the companion service of [src/api.py]

    A shallow embedding of the configuration class, the service
    constructor and the [run_agent] override (quota check and wrapped
    emit callbacks), and of the companion page of [src/ui/Companion.py],
    followed by the properties the specification states about the
    service and by further properties of both files. *)

From Stdlib Require Import String Ascii List Bool Arith ZArith QArith Lia.
Import ListNotations.
Local Open Scope string_scope.
Local Open Scope list_scope.

Set Implicit Arguments.

(** ** Python values used by the service *)

(** Truth value of a [str]: only the empty string is falsy. *)
Definition truthy (s : string) : bool :=
  match s with
  | EmptyString => false
  | String _ _ => true
  end.

(** [a / b] on two [int]s is true division; for list lengths the
    quotient by 2 is exact, so it is kept as a rational. *)
Definition truediv (a b : Z) : Q := (inject_Z a / inject_Z b)%Q.

(** [x > y] between the quotient and an [int]. *)
Definition gt_int (x : Q) (y : Z) : bool := negb (Qle_bool x (inject_Z y)).

(** Exceptions the modelled code can raise. *)
Inductive Exn : Type :=
| IndexError
| KeyError (key : string)
| AttributeError (attr : string)
| ValueError (msg : string)
| ValidationError (missing : list string)
| ToolError (msg : string)
| MediaFileStorageError (path : string).

(** ** Blocks (the platform's message type) *)

Inductive MimeTypes : Type := TXT | PNG | JPG | GIF | MP3 | WAV | MP4.

Definition MimeTypes_eqb (a b : MimeTypes) : bool :=
  match a, b with
  | TXT, TXT | PNG, PNG | JPG, JPG | GIF, GIF
  | MP3, MP3 | WAV, WAV | MP4, MP4 => true
  | _, _ => false
  end.

Record Block : Type := mkBlock {
  text : option string;
  mime_type : option MimeTypes;
  url : option string;
  public_data : bool
}.

(** [Block(text=s)] *)
Definition Block_text (s : string) : Block :=
  {| text := Some s; mime_type := None; url := None; public_data := false |}.

(** [block.is_text()]: the mime type is text, or there is no mime type
    and the block has a text that is not empty. *)
Definition is_text (b : Block) : bool :=
  match mime_type b with
  | Some m => MimeTypes_eqb m TXT
  | None =>
      match text b with
      | Some s => truthy s
      | None => false
      end
  end.

(** [block.text = t].  The assignment changes the block object; here it
    gives the block as it is from then on, and the blocks of a batch are
    taken as they are when the loop reaches them. *)
Definition set_text (b : Block) (t : string) : Block :=
  {| text := Some t; mime_type := mime_type b; url := url b;
     public_data := public_data b |}.

(** [block.set_public_data(flag)] *)
Definition set_public_data (b : Block) (flag : bool) : Block :=
  {| text := text b; mime_type := mime_type b; url := url b;
     public_data := flag |}.

Definition Metadata : Type := list (string * string).

(** ** Effects: a log of what reached the platform, and exceptions *)

(** [FunctionsBasedAgent]; [PROMPT] is [None] while the class default
    is in place. *)
Record Agent : Type := mkAgent {
  tools : list string;
  llm_model_name : string;
  llm_temperature : Q;
  PROMPT : option string
}.

Inductive Event : Type :=
| Emit (callback : nat) (blocks : list Block) (metadata : Metadata)
| AgentInvoked (agent : Agent).

(** A computation logs events and then returns or raises. *)
Definition M (A : Type) : Type := (list Event * (Exn + A))%type.

Definition ret {A} (a : A) : M A := ([], inr a).

Definition raise {A} (e : Exn) : M A := ([], inl e).

Definition bind {A B} (m : M A) (k : A -> M B) : M B :=
  match m with
  | (l, inl e) => (l, inl e)
  | (l, inr a) => let (l', r) := k a in (l ++ l', r)
  end.

Definition lift {A} (r : Exn + A) : M A := ([], r).

Definition tell (e : Event) : M unit := ([e], inr tt).

Declare Scope py_scope.
Delimit Scope py_scope with py.
Notation "x <- m ;; k" := (bind m (fun x => k))
  (at level 61, m at next level, right associativity) : py_scope.
Notation "m ;; k" := (bind m (fun _ => k))
  (at level 61, right associativity) : py_scope.
Local Open Scope py_scope.

(** [for x in xs: body(x)] *)
Fixpoint for_each {A} (xs : list A) (body : A -> M unit) : M unit :=
  match xs with
  | [] => ret tt
  | x :: rest => body x ;; for_each rest body
  end.

(** [xs[0]] *)
Definition item0 {A} (xs : list A) : M A :=
  match xs with
  | [] => raise IndexError
  | x :: _ => ret x
  end.

Definition events {A} (m : M A) : list Event := fst m.
Definition outcome {A} (m : M A) : Exn + A := snd m.

Definition returned {A} (m : M A) : bool :=
  match outcome m with
  | inr _ => true
  | inl _ => false
  end.

(** Whether the platform's agent loop was entered. *)
Definition is_invocation (e : Event) : bool :=
  match e with
  | Emit _ _ _ => false
  | AgentInvoked _ => true
  end.

Definition agent_invoked (l : list Event) : bool := existsb is_invocation l.

(** [EmitFunc = Callable[[List[Block], Metadata], None]] *)
Definition EmitFunc : Type := list Block -> Metadata -> M unit.

(** A callback handed in by a transport: it delivers the batch. *)
Definition transport_emit (i : nat) : EmitFunc :=
  fun blocks metadata => tell (Emit i blocks metadata).

Record AgentContext : Type := mkContext {
  chat_history_messages : list Block;
  emit_funcs : list EmitFunc;
  metadata : Metadata
}.

(** [context.emit_funcs = fs] *)
Definition set_emit_funcs (c : AgentContext) (fs : list EmitFunc) : AgentContext :=
  {| chat_history_messages := chat_history_messages c;
     emit_funcs := fs;
     metadata := metadata c |}.

(** ** Configuration *)

Definition TEMPERATURE : Q := (7 # 10)%Q.
Definition MAX_FREE_MESSAGES : Z := 5%Z.

Record GirlFriendGPTConfig : Type := mkConfig {
  bot_token : string;
  elevenlabs_api_key : string;
  elevenlabs_voice_id : string;
  chat_ids : string;
  name : string;
  byline : string;
  identity : string;
  behavior : string;
  use_gpt4 : bool
}.

(** The keyword arguments a configuration is constructed from; a field
    that is not passed is [None]. *)
Record ConfigArgs : Type := mkArgs {
  given_bot_token : option string;
  given_elevenlabs_api_key : option string;
  given_elevenlabs_voice_id : option string;
  given_chat_ids : option string;
  given_name : option string;
  given_byline : option string;
  given_identity : option string;
  given_behavior : option string;
  given_use_gpt4 : option bool
}.

(** [Field(default=d, ...)] *)
Definition field_default {A} (d : A) (v : option A) : A :=
  match v with
  | Some a => a
  | None => d
  end.

(** A [Field(...)] without default is required; the validation error
    names a field by its alias, which is the field's name in camel case. *)
Definition field_missing {A} (field : string) (v : option A) : list string :=
  match v with
  | Some _ => []
  | None => [field]
  end.

Definition missing_fields (kw : ConfigArgs) : list string :=
  field_missing "botToken" (given_bot_token kw) ++
  field_missing "name" (given_name kw) ++
  field_missing "byline" (given_byline kw) ++
  field_missing "identity" (given_identity kw) ++
  field_missing "behavior" (given_behavior kw).

(** The constructor of the configuration class, called with keyword
    arguments [kw]: validation fails when a required field is absent. *)
Definition GirlFriendGPTConfig_new (kw : ConfigArgs) : Exn + GirlFriendGPTConfig :=
  match given_bot_token kw, given_name kw, given_byline kw,
        given_identity kw, given_behavior kw with
  | Some token, Some n, Some b, Some i, Some h =>
      inr {| bot_token := token;
             elevenlabs_api_key := field_default "" (given_elevenlabs_api_key kw);
             elevenlabs_voice_id := field_default "" (given_elevenlabs_voice_id kw);
             chat_ids := field_default "" (given_chat_ids kw);
             name := n;
             byline := b;
             identity := i;
             behavior := h;
             use_gpt4 := field_default true (given_use_gpt4 kw) |}
  | _, _, _, _, _ => inl (ValidationError (missing_fields kw))
  end.

(** Only the required fields are passed. *)
Definition required_only (token n b i h : string) : ConfigArgs :=
  {| given_bot_token := Some token;
     given_elevenlabs_api_key := None;
     given_elevenlabs_voice_id := None;
     given_chat_ids := None;
     given_name := Some n;
     given_byline := Some b;
     given_identity := Some i;
     given_behavior := Some h;
     given_use_gpt4 := None |}.

(** ** The system prompt and [str.format] *)

Definition SYSTEM_PROMPT : string :=
"You are {self.name}, {self.byline}.

Who you are:

{identity_str}

How you behave:

{behavior_str}

NOTE: Some functions return images, video, and audio files. These multimedia files will be represented in messages as
UUIDs for Steamship Blocks. When responding directly to a user, you SHOULD print the Steamship Blocks for the images,
video, or audio as follows: `Block(UUID for the block)`.

Example response for a request that generated an image:
Here is the image you requested: Block(288A2CA1-4753-4298-9716-53C1E42B726B).

Only use the functions you have been provided with.
".

Definition Kwargs : Type := list (string * string).

Fixpoint kw_get (kwargs : Kwargs) (key : string) : option string :=
  match kwargs with
  | [] => None
  | (k, v) :: rest => if String.eqb k key then Some v else kw_get rest key
  end.

Definition is_one_of (cs : list ascii) (c : ascii) : bool :=
  existsb (Ascii.eqb c) cs.

(** The part of [s] before the first character on which [stop] holds,
    and the rest from that character on. *)
Fixpoint split_where (stop : ascii -> bool) (s : string) : string * string :=
  match s with
  | EmptyString => (EmptyString, EmptyString)
  | String c rest =>
      if stop c then (EmptyString, s)
      else let (p, q) := split_where stop rest in (String c p, q)
  end.

Definition is_digit (c : ascii) : bool :=
  ((48 <=? nat_of_ascii c) && (nat_of_ascii c <=? 57))%nat.

Fixpoint all_digits (s : string) : bool :=
  match s with
  | EmptyString => true
  | String c rest => is_digit c && all_digits rest
  end.

(** A replacement field is [arg_name] followed by accessors
    ([.attr], [[index]]), then an optional [!conversion] and [:spec]. *)
Definition field_name (field : string) : string :=
  fst (split_where (is_one_of ["!"; ":"]%char) field).

Definition arg_name (field : string) : string :=
  fst (split_where (is_one_of ["."; "["]%char) (field_name field)).

Definition field_rest (field : string) : string :=
  snd (split_where (is_one_of ["."; "["; "!"; ":"]%char) field).

(** The value of one replacement field when [format] is called with
    keyword arguments only, all of them [str].  An empty or numeric
    [arg_name] indexes the (empty) positional arguments; any other name
    is looked up among the keywords.  Accessors, conversions and format
    specifications on a found argument are not used by the service: a
    field that carries them is reported as an [AttributeError] on what
    follows the name. *)
Definition get_field (field : string) (kwargs : Kwargs) : Exn + string :=
  let a := arg_name field in
  if all_digits a then inl IndexError
  else match kw_get kwargs a with
       | None => inl (KeyError a)
       | Some v =>
           match field_rest field with
           | EmptyString => inr v
           | rest => inl (AttributeError rest)
           end
       end.

Inductive Scan : Type :=
| InLiteral
| AfterOpen
| InField (field : string) (depth : nat)
| AfterClose.

Definition prepend (c : ascii) (r : Exn + string) : Exn + string :=
  match r with
  | inl e => inl e
  | inr s => inr (String c s)
  end.

Definition snoc (s : string) (c : ascii) : string :=
  (s ++ String c EmptyString)%string.

(** [template.format] with keyword arguments scans left to right: doubled braces are
    literal braces, [{...}] is a replacement field, and the first field
    that cannot be resolved raises. *)
Fixpoint format_from (st : Scan) (template : string) (kwargs : Kwargs)
  : Exn + string :=
  match template with
  | EmptyString =>
      match st with
      | InLiteral => inr EmptyString
      | AfterOpen => inl (ValueError "Single '{' encountered in format string")
      | InField _ _ => inl (ValueError "expected '}' before end of string")
      | AfterClose => inl (ValueError "Single '}' encountered in format string")
      end
  | String c rest =>
      match st with
      | InLiteral =>
          if Ascii.eqb c "{" then format_from AfterOpen rest kwargs
          else if Ascii.eqb c "}" then format_from AfterClose rest kwargs
          else prepend c (format_from InLiteral rest kwargs)
      | AfterOpen =>
          if Ascii.eqb c "{" then prepend "{" (format_from InLiteral rest kwargs)
          else if Ascii.eqb c "}" then
            match get_field EmptyString kwargs with
            | inl e => inl e
            | inr v =>
                match format_from InLiteral rest kwargs with
                | inl e => inl e
                | inr s => inr (v ++ s)%string
                end
            end
          else format_from (InField (String c EmptyString) 0) rest kwargs
      | InField field depth =>
          if Ascii.eqb c "{" then
            format_from (InField (snoc field c) (S depth)) rest kwargs
          else if Ascii.eqb c "}" then
            match depth with
            | S d => format_from (InField (snoc field c) d) rest kwargs
            | O =>
                match get_field field kwargs with
                | inl e => inl e
                | inr v =>
                    match format_from InLiteral rest kwargs with
                    | inl e => inl e
                    | inr s => inr (v ++ s)%string
                    end
                end
            end
          else format_from (InField (snoc field c) depth) rest kwargs
      | AfterClose =>
          if Ascii.eqb c "}" then prepend "}" (format_from InLiteral rest kwargs)
          else inl (ValueError "Single '}' encountered in format string")
      end
  end.

Definition format (template : string) (kwargs : Kwargs) : Exn + string :=
  format_from InLiteral template kwargs.

(** The replacement fields of a template, in order (for inspection). *)
Fixpoint fields_from (st : Scan) (template : string) : list string :=
  match template with
  | EmptyString => []
  | String c rest =>
      match st with
      | InLiteral =>
          if Ascii.eqb c "{" then fields_from AfterOpen rest
          else if Ascii.eqb c "}" then fields_from AfterClose rest
          else fields_from InLiteral rest
      | AfterOpen =>
          if Ascii.eqb c "{" then fields_from InLiteral rest
          else if Ascii.eqb c "}" then EmptyString :: fields_from InLiteral rest
          else fields_from (InField (String c EmptyString) 0) rest
      | InField field depth =>
          if Ascii.eqb c "{" then fields_from (InField (snoc field c) (S depth)) rest
          else if Ascii.eqb c "}" then
            match depth with
            | S d => fields_from (InField (snoc field c) d) rest
            | O => field :: fields_from InLiteral rest
            end
          else fields_from (InField (snoc field c) depth) rest
      | AfterClose => fields_from InLiteral rest
      end
  end.

Definition fields (template : string) : list string :=
  fields_from InLiteral template.

(** ** The service *)

Record GirlfriendGPT : Type := mkService {
  config : GirlFriendGPTConfig;
  _agent : Agent;
  mixins : list string
}.

(** The keyword arguments of the [SYSTEM_PROMPT.format] call. *)
Definition prompt_kwargs (cfg : GirlFriendGPTConfig) : Kwargs :=
  [("name", name cfg); ("byline", byline cfg);
   ("identity", identity cfg); ("behavior", behavior cfg)].

(** [GirlfriendGPT.__init__], after the base class has stored the
    configuration. *)
Definition GirlfriendGPT_init (cfg : GirlFriendGPTConfig) : Exn + GirlfriendGPT :=
  let model_name := if use_gpt4 cfg then "gpt-4" else "gpt-3.5-turbo" in
  let agent := {| tools := ["SearchTool"; "SelfieTool"; "VideoMessageTool"];
                  llm_model_name := model_name;
                  llm_temperature := TEMPERATURE;
                  PROMPT := None |} in
  match format SYSTEM_PROMPT (prompt_kwargs cfg) with
  | inl e => inl e
  | inr prompt =>
      inr {| config := cfg;
             _agent := {| tools := tools agent;
                          llm_model_name := llm_model_name agent;
                          llm_temperature := llm_temperature agent;
                          PROMPT := Some prompt |};
             mixins := ["SteamshipWidgetTransport"; "TelegramTransport";
                        "IndexerPipelineMixin"] |}
  end.

(** [GenerateSpeechTool]: only its plugin configuration is set here. *)
Record Tool : Type := mkTool {
  generator_plugin_config : list (string * string)
}.

(** [voice_tool]: the tool is built for every configuration. *)
Definition voice_tool (self : GirlfriendGPT) : option Tool :=
  let speech := {| generator_plugin_config := [] |} in
  let speech :=
    {| generator_plugin_config :=
         [("voice_id", elevenlabs_voice_id (config self));
          ("elevenlabs_api_key", elevenlabs_api_key (config self))] |} in
  Some speech.

(** The batch sent when the free quota is used up. *)
Definition limit_notice : list Block :=
  [Block_text "Thanks for trying out SachaGPT!";
   Block_text "Please deploy your own version GirlfriendGPT to continue chatting.";
   Block_text "Learn how on: https://github.com/EniasCailliau/GirlfriendGPT/"].

(** [limit_exceeded]; the configuration class declares [chat_ids], so
    the [hasattr] test holds. *)
Definition limit_exceeded (self : GirlfriendGPT) (context : AgentContext) : M bool :=
  if truthy (chat_ids (config self)) then
    if gt_int (truediv (Z.of_nat (length (chat_history_messages context))) 2)
              MAX_FREE_MESSAGES
    then
      for_each (emit_funcs context)
               (fun func => func limit_notice (metadata context)) ;;
      ret true
    else ret false
  else ret false.

Section Platform.

(** [tools.utils.clean_text], applied to whatever [block.text] holds. *)
Variable clean_text : option string -> string.

(** [GenerateSpeechTool.run(blocks, context)]: a call to an external
    service, which returns blocks or raises.  Of the context it is
    given the history and the metadata. *)
Variable speech_run :
  Tool -> list Block -> list Block -> Metadata -> Exn + list Block.

(** What the platform's agent loop emits for a conversation: a series
    of calls, each to the callback at some index of
    [context.emit_funcs] with some batch. *)
Variable agent_steps : Agent -> list Block -> list (nat * list Block).

(** [AgentService.run_agent], the base implementation. *)
Definition AgentService_run_agent (agent : Agent) (context : AgentContext)
  : M unit :=
  tell (AgentInvoked agent) ;;
  for_each (agent_steps agent (chat_history_messages context))
           (fun step =>
              match nth_error (emit_funcs context) (fst step) with
              | Some func => func (snd step) (metadata context)
              | None => ret tt
              end).

(** The body of the loop of [wrapper], for one block. *)
Definition wrapper_block (speech : option Tool) (context : AgentContext)
           (emit_func : EmitFunc) (md : Metadata) (block : Block)
  : M unit :=
  if is_text block then
    let text := clean_text (text block) in
    if truthy text then
      let block := set_text block text in
      emit_func [block] md ;;
      match speech with
      | Some tool =>
          out <- lift (speech_run tool [block]
                         (chat_history_messages context)
                         (metadata context)) ;;
          audio_block <- item0 out ;;
          let audio_block := set_public_data audio_block true in
          emit_func [audio_block] md
      | None => ret tt
      end
    else ret tt
  else emit_func [block] md.

(** [wrap_emit(emit_func)] inside [run_agent]. *)
Definition wrap_emit (speech : option Tool) (context : AgentContext)
           (emit_func : EmitFunc) : EmitFunc :=
  fun blocks md =>
    for_each blocks (wrapper_block speech context emit_func md).

(** [run_agent] *)
Definition run_agent (self : GirlfriendGPT) (agent : Agent)
           (context : AgentContext) : M unit :=
  exceeded <- limit_exceeded self context ;;
  if (exceeded : bool) then ret tt
  else
    let speech := voice_tool self in
    let context :=
      set_emit_funcs context
        (map (wrap_emit speech context) (emit_funcs context)) in
    AgentService_run_agent agent context.

End Platform.

(** ** The sanitizer as the specification describes it *)

(** Modelled from the spec: [tools/utils.py], which defines
    [clean_text], is not among the sources.  The specification gives the
    sanitizer's contract: it accepts raw text and returns cleaned text or
    the empty string, it never fails, and a message whose text is missing
    or malformed is treated as empty.  [strip] stands for the cleaning of
    a present text. *)
Definition clean_text_total (strip : string -> string) (raw : option string)
  : string :=
  match raw with
  | Some s => strip s
  | None => EmptyString
  end.

(** ** A small platform to run the definitions on *)

Definition sample_metadata : Metadata := [("chat_id", "42")].

(** Removes every asterisk. *)
Fixpoint strip_stars (s : string) : string :=
  match s with
  | EmptyString => EmptyString
  | String c rest =>
      if Ascii.eqb c "*" then strip_stars rest else String c (strip_stars rest)
  end.

Definition sample_clean_text : option string -> string :=
  clean_text_total strip_stars.

(** A speech service that answers each input block with one MP3 block. *)
Definition sample_speech_run (tool : Tool) (blocks history : list Block)
           (md : Metadata) : Exn + list Block :=
  inr (map (fun b => {| text := None; mime_type := Some MP3;
                        url := text b; public_data := false |}) blocks).

(** A speech service that is down. *)
Definition failing_speech_run (tool : Tool) (blocks history : list Block)
           (md : Metadata) : Exn + list Block :=
  inl (ToolError "speech generation failed").

Definition text_block (s : string) : Block :=
  {| text := Some s; mime_type := Some TXT; url := None; public_data := false |}.

Definition image_block (ref : string) : Block :=
  {| text := None; mime_type := Some PNG; url := Some ref; public_data := false |}.

(** An agent that answers with one text on the first callback. *)
Definition sample_agent_steps (agent : Agent) (history : list Block)
  : list (nat * list Block) :=
  [(0%nat, [text_block "hello **there**"])].

Definition sample_agent : Agent :=
  {| tools := ["SearchTool"; "SelfieTool"; "VideoMessageTool"];
     llm_model_name := "gpt-4";
     llm_temperature := TEMPERATURE;
     PROMPT := None |}.

Definition sample_config (allowlist : string) : GirlFriendGPTConfig :=
  {| bot_token := "token";
     elevenlabs_api_key := "";
     elevenlabs_voice_id := "";
     chat_ids := allowlist;
     name := "Sacha";
     byline := "a companion";
     identity := "kind";
     behavior := "listens";
     use_gpt4 := true |}.

Definition sample_service (allowlist : string) : GirlfriendGPT :=
  {| config := sample_config allowlist;
     _agent := sample_agent;
     mixins := ["SteamshipWidgetTransport"; "TelegramTransport";
                "IndexerPipelineMixin"] |}.

(** A history of [n] messages. *)
Definition history (n : nat) : list Block := repeat (text_block "hi") n.

Definition sample_context (n : nat) (ids : list nat) : AgentContext :=
  {| chat_history_messages := history n;
     emit_funcs := map transport_emit ids;
     metadata := sample_metadata |}.

Definition sample_tool : Tool :=
  {| generator_plugin_config :=
       [("voice_id", "voice"); ("elevenlabs_api_key", "key")] |}.


(** What [sample_speech_run] answers for a block with text [s]. *)
Definition sample_audio (s : string) : Block :=
  {| text := None; mime_type := Some MP3; url := Some s; public_data := false |}.

(** ** More of [src/api.py] *)

(** A callback whose transport is broken: it raises [e]. *)
Definition failing_emit (e : Exn) : EmitFunc :=
  fun blocks metadata => raise e.

(** Whether the quota test of [limit_exceeded] holds for a service and a
    history of [n] messages, with the comparison spelt out on [nat]. *)
Definition over_quota (self : GirlfriendGPT) (n : nat) : bool :=
  truthy (chat_ids (config self)) && (10 <? n)%nat.

(** The calls expected of a wrapped callback for one block when the
    speech tool answers every sanitized text [b] with [audio_of b]:
    nothing for a text that is empty once sanitized, the sanitized text
    and its public audio for any other text, the block itself for
    anything that is not text. *)
Definition expected_calls (clean_text : option string -> string)
           (audio_of : Block -> Block) (i : nat) (md : Metadata) (b : Block)
  : list Event :=
  if is_text b then
    if truthy (clean_text (text b)) then
      let sanitized := set_text b (clean_text (text b)) in
      [Emit i [sanitized] md;
       Emit i [set_public_data (audio_of sanitized) true] md]
    else []
  else [Emit i [b] md].

(** ** The companion page of [src/ui/Companion.py] *)

(** A handle on a deployed companion, as [get_instance] returns it. *)
Record CompanionInstance : Type := mkInstance {
  invocation_url : string;
  instance_config : Kwargs
}.

(** An entry of [st.session_state.messages]. *)
Record ChatMessage : Type := mkMessage {
  role : string;
  content : string
}.

(** The keys of [st.session_state] that the page uses; a key that is
    not set is [None]. *)
Record SessionState : Type := mkSession {
  instance : option CompanionInstance;
  companion_profile_img : option string;
  companion_first_message : option string;
  messages : option (list ChatMessage)
}.

(** What a run of the script shows or asks of the platform. *)
Inductive UIEvent : Type :=
| ShowButton (label : string)
| ShowHeader (s : string)
| ShowImage (src : string)
| ShowChat (who said : string)
| ShowBalloons
| CallGetInstance (handle : string) (config : Kwargs)
| CallAddResource (inst : CompanionInstance) (video : string)
| CallInvoke (inst : CompanionInstance) (prompt : string).

(** A run ends early by a rerun request or by an exception. *)
Inductive Stop : Type :=
| Rerun
| Raised (e : Exn).

(** A step of the script: it reads and writes the session state, shows
    things, and goes on or stops. *)
Definition U (A : Type) : Type :=
  SessionState -> SessionState * list UIEvent * (Stop + A).

Definition u_ret {A} (a : A) : U A := fun st => (st, [], inr a).

Definition u_bind {A B} (m : U A) (k : A -> U B) : U B :=
  fun st =>
    match m st with
    | (st1, l1, inl s) => (st1, l1, inl s)
    | (st1, l1, inr a) =>
        match k a st1 with
        | (st2, l2, r) => (st2, l1 ++ l2, r)
        end
    end.

Definition u_stop {A} (s : Stop) : U A := fun st => (st, [], inl s).

Definition u_show (e : UIEvent) : U unit := fun st => (st, [e], inr tt).

Definition u_get : U SessionState := fun st => (st, [], inr st).

Definition u_put (st' : SessionState) : U unit := fun _ => (st', [], inr tt).

(** The result of a call that returns or raises. *)
Definition u_lift {A} (r : Exn + A) : U A :=
  match r with
  | inl e => u_stop (Raised e)
  | inr a => u_ret a
  end.

Declare Scope ui_scope.
Delimit Scope ui_scope with ui.
Notation "x <- m ;; k" := (u_bind m (fun x => k))
  (at level 61, m at next level, right associativity) : ui_scope.
Notation "m ;; k" := (u_bind m (fun _ => k))
  (at level 61, right associativity) : ui_scope.

Fixpoint u_for {A} (xs : list A) (body : A -> U unit) : U unit :=
  match xs with
  | [] => u_ret tt
  | x :: rest => (body x ;; u_for rest body)%ui
  end.

(** [st.session_state.instance = v] and the like. *)
Definition set_instance (v : option CompanionInstance) : U unit :=
  fun st =>
    ({| instance := v;
        companion_profile_img := companion_profile_img st;
        companion_first_message := companion_first_message st;
        messages := messages st |}, [], inr tt).

Definition set_companion_profile_img (v : string) : U unit :=
  fun st =>
    ({| instance := instance st;
        companion_profile_img := Some v;
        companion_first_message := companion_first_message st;
        messages := messages st |}, [], inr tt).

Definition set_companion_first_message (v : string) : U unit :=
  fun st =>
    ({| instance := instance st;
        companion_profile_img := companion_profile_img st;
        companion_first_message := Some v;
        messages := messages st |}, [], inr tt).

Definition set_messages (v : list ChatMessage) : U unit :=
  fun st =>
    ({| instance := instance st;
        companion_profile_img := companion_profile_img st;
        companion_first_message := companion_first_message st;
        messages := Some v |}, [], inr tt).

(** [st.session_state.companion_first_message], an attribute access. *)
Definition get_companion_first_message : U string :=
  fun st =>
    match companion_first_message st with
    | Some v => (st, [], inr v)
    | None => (st, [], inl (Raised (AttributeError "companion_first_message")))
    end.

(** [st.session_state.messages], an attribute access. *)
Definition get_messages : U (list ChatMessage) :=
  fun st =>
    match messages st with
    | Some v => (st, [], inr v)
    | None => (st, [], inl (Raised (AttributeError "messages")))
    end.

(** [st.session_state.messages.append(m)] *)
Definition append_message (m : ChatMessage) : U unit :=
  (ms <- get_messages ;; set_messages (ms ++ [m]))%ui.

(** [d[key]] on a dict with [str] keys. *)
Definition dict_item (d : Kwargs) (key : string) : Exn + string :=
  match kw_get d key with
  | Some v => inr v
  | None => inl (KeyError key)
  end.

(** What the user did on the form before this run: the values of the
    text inputs and whether the button was pressed.  The template
    selector only pre-fills these inputs. *)
Record FormInputs : Type := mkForm {
  personality : string;
  form_byline : string;
  form_identity : string;
  form_behavior : string;
  profile_picture : string;
  first_message : string;
  youtube_video_url : string;
  spin_up_clicked : bool
}.

(** What the user did on the chat page before this run. *)
Record ChatInputs : Type := mkChat {
  new_bot_clicked : bool;
  chat_input : option string
}.

Section Page.

(** The helpers of [utils] and the platform are not among the sources;
    they are taken as they are called. *)
Variable to_snake : string -> string.
Variable get_instance : string -> Kwargs -> Exn + CompanionInstance.
Variable add_resource : CompanionInstance -> string -> Exn + unit.
Variable invoke : CompanionInstance -> string -> Exn + string.
Variable get_api_key : U unit.

(** [st.image(src)] opens the picture, a path or an address, and raises
    when it cannot. *)
Variable st_image : string -> Exn + unit.

(** The [config] handed to [get_instance]. *)
Definition companion_config (form : FormInputs) : Kwargs :=
  [("name", personality form); ("byline", form_byline form);
   ("identity", form_identity form); ("behavior", form_behavior form)].

(** The branch taken while the session has no instance: the form. *)
Definition creation_page (form : FormInputs) : U unit :=
  (set_companion_profile_img (profile_picture form) ;;
   set_companion_first_message (first_message form) ;;
   if spin_up_clicked form then
     u_show (CallGetInstance (to_snake (personality form))
                             (companion_config form)) ;;
     inst <- u_lift (get_instance (to_snake (personality form))
                                  (companion_config form)) ;;
     set_instance (Some inst) ;;
     if truthy (youtube_video_url form) then
       u_show (CallAddResource inst (youtube_video_url form)) ;;
       u_lift (add_resource inst (youtube_video_url form)) ;;
       u_show ShowBalloons ;;
       u_stop Rerun
     else u_ret tt
   else u_ret tt)%ui.

(** What the chat page does with a submitted prompt. *)
Definition chat_exchange (inst : CompanionInstance) (prompt : string) : U unit :=
  (get_api_key ;;
   append_message {| role := "user"; content := prompt |} ;;
   u_show (ShowChat "user" prompt) ;;
   u_show (CallInvoke inst prompt) ;;
   response <- u_lift (invoke inst prompt) ;;
   u_show (ShowChat "assistant" response) ;;
   append_message {| role := "assistant"; content := response |})%ui.

(** [if st.session_state.get("companion_profile_img"): st.image(...)] *)
Definition show_profile_img : U unit :=
  (st <- u_get ;;
   match companion_profile_img st with
   | Some src =>
       if truthy src then
         u_lift (st_image src) ;; u_show (ShowImage src)
       else u_ret tt
   | None => u_ret tt
   end)%ui.

(** [if "messages" not in st.session_state: ...]: the transcript starts
    with the companion's first message. *)
Definition init_messages : U unit :=
  (st <- u_get ;;
   match messages st with
   | None =>
       first <- get_companion_first_message ;;
       set_messages [{| role := "assistant"; content := first |}]
   | Some _ => u_ret tt
   end)%ui.

(** The branch taken while the session has an instance: the chat. *)
Definition chat_page (inst : CompanionInstance) (inp : ChatInputs) : U unit :=
  (companion_name <- u_lift (dict_item (instance_config inst) "name") ;;
   u_show (ShowButton "+ New bot") ;;
   (if new_bot_clicked inp then
      set_instance None ;; u_stop Rerun
    else u_ret tt) ;;
   u_show (ShowHeader ("Start chatting with " ++ companion_name)%string) ;;
   show_profile_img ;;
   init_messages ;;
   ms <- get_messages ;;
   u_for ms (fun msg => u_show (ShowChat (role msg) (content msg))) ;;
   match chat_input inp with
   | Some prompt =>
       if truthy prompt then chat_exchange inst prompt else u_ret tt
   | None => u_ret tt
   end)%ui.

(** One run of the script, from the test on the session's instance. *)
Definition page (form : FormInputs) (inp : ChatInputs) : U unit :=
  fun st =>
    match instance st with
    | Some inst => chat_page inst inp st
    | None => creation_page form st
    end.

(** The session state that a run leaves for the next one. *)
Definition state_after {A} (m : U A) (st : SessionState) : SessionState :=
  fst (fst (m st)).

Definition shown {A} (m : U A) (st : SessionState) : list UIEvent :=
  snd (fst (m st)).

Definition ending {A} (m : U A) (st : SessionState) : Stop + A :=
  snd (m st).

(** Successive runs of the chat page for one instance, one per entry of
    [inputs]: each starts from the session state the previous one left. *)
Definition chat_session (inst : CompanionInstance) (inputs : list ChatInputs)
           (st : SessionState) : SessionState :=
  fold_left (fun s inp => state_after (chat_page inst inp) s) inputs st.

End Page.

(** The result of a step, after [l] has been shown. *)
Definition u_after {A} (l : list UIEvent)
           (x : SessionState * list UIEvent * (Stop + A))
  : SessionState * list UIEvent * (Stop + A) :=
  match x with
  | (st, l', r) => (st, l ++ l', r)
  end.

(** The session state with another transcript, another instance. *)
Definition with_messages (st : SessionState) (ms : list ChatMessage)
  : SessionState :=
  {| instance := instance st;
     companion_profile_img := companion_profile_img st;
     companion_first_message := companion_first_message st;
     messages := Some ms |}.

Definition with_instance (st : SessionState) (v : option CompanionInstance)
  : SessionState :=
  {| instance := v;
     companion_profile_img := companion_profile_img st;
     companion_first_message := companion_first_message st;
     messages := messages st |}.

Definition show_message (m : ChatMessage) : UIEvent :=
  ShowChat (role m) (content m).

(** What the chat page shows before it looks at the prompt: the button,
    the header, the profile picture if one is set, the transcript. *)
Definition chat_top (companion_name : string) (st : SessionState)
           (ms : list ChatMessage) : list UIEvent :=
  [ShowButton "+ New bot";
   ShowHeader ("Start chatting with " ++ companion_name)%string]
  ++ match companion_profile_img st with
     | Some src => if truthy src then [ShowImage src] else []
     | None => []
     end
  ++ map show_message ms.

Definition user_says (p : string) : ChatMessage :=
  {| role := "user"; content := p |}.

Definition assistant_says (r : string) : ChatMessage :=
  {| role := "assistant"; content := r |}.

(** The profile picture of the session, if one is set, can be opened. *)
Definition opens (st_image : string -> Exn + unit) (picture : option string)
  : Prop :=
  match picture with
  | Some src => truthy src = true -> st_image src = inr tt
  | None => True
  end.

(** The transcript a run of the chat page starts from: the one of the
    session, or else the first message alone. *)
Definition opening (st : SessionState) : option (list ChatMessage) :=
  match messages st with
  | Some ms => Some ms
  | None =>
      match companion_first_message st with
      | Some first => Some [assistant_says first]
      | None => None
      end
  end.

(** The transcript after the greeting [first] and the exchanges for the
    submitted prompts, each answered by [answer]. *)
Definition transcript (first : string) (answer : string -> string)
           (prompts : list string) : list ChatMessage :=
  assistant_says first
  :: flat_map (fun p => [user_says p; assistant_says (answer p)]) prompts.

(** The prompts of a series of runs that were submitted and not empty. *)
Definition submitted (inputs : list ChatInputs) : list string :=
  flat_map (fun inp =>
              match chat_input inp with
              | Some p => if truthy p then [p] else []
              | None => []
              end) inputs.

(** *** Sample helpers for the page *)

Definition sample_to_snake (s : string) : string := s.

Definition sample_get_instance (handle : string) (cfg : Kwargs)
  : Exn + CompanionInstance :=
  inr {| invocation_url := ("https://example.org/" ++ handle)%string;
         instance_config := cfg |}.

Definition sample_add_resource (inst : CompanionInstance) (video : string)
  : Exn + unit := inr tt.

Definition sample_answer (p : string) : string := ("You said: " ++ p)%string.

Definition sample_invoke (inst : CompanionInstance) (p : string)
  : Exn + string := inr (sample_answer p).

Definition failing_invoke (inst : CompanionInstance) (p : string)
  : Exn + string := inl (ToolError "invoke failed").

Definition sample_get_api_key : U unit := u_ret tt.

(** Pictures are served from one site; nothing else can be opened. *)
Definition sample_st_image (src : string) : Exn + unit :=
  if String.eqb src "https://example.org/robin.png" then inr tt
  else inl (MediaFileStorageError src).

Definition sample_form : FormInputs :=
  {| personality := "Sacha";
     form_byline := "a companion";
     form_identity := "kind";
     form_behavior := "listens";
     profile_picture := "";
     first_message := "Hello!";
     youtube_video_url := "";
     spin_up_clicked := true |}.

Definition sample_instance : CompanionInstance :=
  {| invocation_url := "https://example.org/Sacha";
     instance_config := [("name", "Sacha"); ("byline", "a companion");
                         ("identity", "kind"); ("behavior", "listens")] |}.

Definition empty_session : SessionState :=
  {| instance := None;
     companion_profile_img := None;
     companion_first_message := None;
     messages := None |}.

Definition sample_session (ms : option (list ChatMessage)) : SessionState :=
  {| instance := Some sample_instance;
     companion_profile_img := Some "";
     companion_first_message := Some "Hello!";
     messages := ms |}.

Definition no_input : ChatInputs :=
  {| new_bot_clicked := false; chat_input := None |}.

Definition say (p : string) : ChatInputs :=
  {| new_bot_clicked := false; chat_input := Some p |}.

Definition press_new_bot : ChatInputs :=
  {| new_bot_clicked := true; chat_input := None |}.

(** A speech service that answers with no block. *)
Definition silent_speech_run (tool : Tool) (blocks history : list Block)
           (md : Metadata) : Exn + list Block :=
  inr [].

(** The block with which [sample_speech_run] answers [b]. *)
Definition sample_audio_of (b : Block) : Block :=
  {| text := None; mime_type := Some MP3; url := text b;
     public_data := false |}.

(** The form filled in for a second companion. *)
Definition other_form : FormInputs :=
  {| personality := "Robin";
     form_byline := "a friend";
     form_identity := "curious";
     form_behavior := "asks questions";
     profile_picture := "https://example.org/robin.png";
     first_message := "Hi, I am Robin.";
     youtube_video_url := "https://youtu.be/abc";
     spin_up_clicked := true |}.

Definition other_instance : CompanionInstance :=
  {| invocation_url := "https://example.org/Robin";
     instance_config := companion_config other_form |}.

(** An instance whose configuration came back without a name. *)
Definition nameless_instance : CompanionInstance :=
  {| invocation_url := "https://example.org/x"; instance_config := [] |}.

(** * Properties *)

(** ** The monad *)

Lemma bind_ret_l {A B} (a : A) (k : A -> M B) : bind (ret a) k = k a.
Proof. unfold bind, ret. destruct (k a) as [l r]. reflexivity. Qed.

Lemma bind_ret_r {A} (m : M A) : bind m ret = m.
Proof.
  destruct m as [l [e | a]]; simpl; [reflexivity |].
  now rewrite app_nil_r.
Qed.

Lemma bind_assoc {A B C} (m : M A) (k : A -> M B) (h : B -> M C) :
  bind (bind m k) h = bind m (fun a => bind (k a) h).
Proof.
  destruct m as [l [e | a]]; simpl; [reflexivity |].
  destruct (k a) as [l1 [e1 | b]]; simpl; [reflexivity |].
  destruct (h b) as [l2 r2]. now rewrite app_assoc.
Qed.

Lemma bind_unit_ext {B} (m : M unit) (k : unit -> M B) :
  bind m k = bind m (fun _ => k tt).
Proof. destruct m as [l [e | []]]; reflexivity. Qed.

Lemma events_bind {A B} (m : M A) (k : A -> M B) :
  events (bind m k) =
  events m ++ match outcome m with
              | inl _ => []
              | inr a => events (k a)
              end.
Proof.
  destruct m as [l [e | a]]; simpl.
  - now rewrite app_nil_r.
  - now destruct (k a).
Qed.

Lemma for_each_app {A} (xs ys : list A) (body : A -> M unit) :
  for_each (xs ++ ys) body = (for_each xs body ;; for_each ys body).
Proof.
  induction xs as [| x xs IH].
  - symmetry. apply (bind_ret_l tt (fun _ => for_each ys body)).
  - cbn [app for_each]. now rewrite IH, bind_assoc.
Qed.

Lemma for_each_one {A} (x : A) (body : A -> M unit) :
  for_each [x] body = body x.
Proof.
  simpl. rewrite <- (bind_ret_r (body x)) at 2.
  rewrite (bind_unit_ext (body x) ret). reflexivity.
Qed.

(** Delivering one batch to each transport callback in turn. *)
Lemma for_each_transport (ids : list nat) (batch : list Block) (md : Metadata) :
  for_each (map transport_emit ids) (fun func => func batch md)
  = (map (fun i => Emit i batch md) ids, inr tt).
Proof.
  induction ids as [| i ids IH]; simpl; [reflexivity |].
  now rewrite IH.
Qed.

(** ** The quota *)

Lemma gt_int_spec (x : Q) (y : Z) :
  gt_int x y = true <-> (inject_Z y < x)%Q.
Proof.
  unfold gt_int. rewrite negb_true_iff. split.
  - intros H. apply Qnot_le_lt. intros Hle.
    apply Qle_bool_iff in Hle. congruence.
  - intros H. destruct (Qle_bool x (inject_Z y)) eqn:E; [| reflexivity].
    apply Qle_bool_iff in E. exfalso. exact (Qlt_not_le _ _ H E).
Qed.

(** Half the count exceeds 5 exactly from 11 messages on. *)
Lemma quota_threshold (n : nat) :
  gt_int (truediv (Z.of_nat n) 2) MAX_FREE_MESSAGES = (10 <? n)%nat.
Proof.
  unfold gt_int, truediv, MAX_FREE_MESSAGES, Qle_bool. simpl.
  destruct (10 <? n)%nat eqn:E.
  - apply Nat.ltb_lt in E. apply negb_true_iff, Z.leb_gt. lia.
  - apply Nat.ltb_ge in E. apply negb_false_iff, Z.leb_le. lia.
Qed.

(** [Block(text=s)] with a text that is not empty counts as text. *)
Lemma Block_text_is_text (s : string) :
  s <> EmptyString -> is_text (Block_text s) = true.
Proof. destruct s; [congruence | reflexivity]. Qed.

Lemma agent_invoked_emits (ids : list nat) (batch : list Block) (md : Metadata) :
  agent_invoked (map (fun i => Emit i batch md) ids) = false.
Proof. induction ids as [| i ids IH]; simpl; auto. Qed.

Lemma truthy_nonempty (s : string) : truthy s = true <-> s <> EmptyString.
Proof. destruct s; simpl; split; congruence. Qed.

Lemma truthy_empty (s : string) : truthy s = false <-> s = EmptyString.
Proof. destruct s; simpl; split; congruence. Qed.

(** With an allowlist and more than ten messages the notice goes to
    every callback, whatever the callbacks are. *)
Lemma limit_exceeded_over (self : GirlfriendGPT) (context : AgentContext) :
  chat_ids (config self) <> EmptyString ->
  (10 < length (chat_history_messages context))%nat ->
  limit_exceeded self context
  = (for_each (emit_funcs context)
              (fun func => func limit_notice (metadata context)) ;;
     ret true).
Proof.
  intros Hids Hlen. unfold limit_exceeded.
  apply truthy_nonempty in Hids. rewrite Hids, quota_threshold.
  apply Nat.ltb_lt in Hlen. now rewrite Hlen.
Qed.

Lemma limit_exceeded_under (self : GirlfriendGPT) (context : AgentContext) :
  (length (chat_history_messages context) <= 10)%nat ->
  limit_exceeded self context = ret false.
Proof.
  intros Hlen. unfold limit_exceeded. rewrite quota_threshold.
  apply Nat.ltb_ge in Hlen. rewrite Hlen. now destruct (truthy _).
Qed.

Lemma limit_exceeded_no_allowlist (self : GirlfriendGPT) (context : AgentContext) :
  chat_ids (config self) = EmptyString ->
  limit_exceeded self context = ret false.
Proof. intros H. unfold limit_exceeded. now rewrite H. Qed.

Lemma half_exceeds_iff (n : nat) :
  (inject_Z MAX_FREE_MESSAGES < truediv (Z.of_nat n) 2)%Q <-> (10 < n)%nat.
Proof.
  rewrite <- gt_int_spec, quota_threshold. apply Nat.ltb_lt.
Qed.

Section Turn.

Variable clean_text : option string -> string.
Variable speech_run :
  Tool -> list Block -> list Block -> Metadata -> Exn + list Block.
Variable agent_steps : Agent -> list Block -> list (nat * list Block).

Local Abbreviation run := (run_agent clean_text speech_run agent_steps).
Local Abbreviation base := (AgentService_run_agent agent_steps).
Local Abbreviation wrap := (wrap_emit clean_text speech_run).
Local Abbreviation body := (wrapper_block clean_text speech_run).

(** C1. When the allowlist [chat_ids] is non-empty and the number of
    messages of the conversation divided by two exceeds 5, [run_agent]
    sends the batch of the three fixed notices once through every
    original emit callback, in the order of the callbacks, and returns
    without invoking the agent. *)
Theorem quota_exceeded_turn
        (self : GirlfriendGPT) (agent : Agent)
        (messages : list Block) (ids : list nat) (md : Metadata) :
  chat_ids (config self) <> EmptyString ->
  (inject_Z MAX_FREE_MESSAGES < truediv (Z.of_nat (length messages)) 2)%Q ->
  run self agent (mkContext messages (map transport_emit ids) md)
  = (map (fun i =>
            Emit i
                 [Block_text "Thanks for trying out SachaGPT!";
                  Block_text "Please deploy your own version GirlfriendGPT to continue chatting.";
                  Block_text "Learn how on: https://github.com/EniasCailliau/GirlfriendGPT/"]
                 md) ids,
     inr tt)
  /\ agent_invoked
       (events (run self agent (mkContext messages (map transport_emit ids) md)))
     = false.
Proof.
  intros Hids Hlen. apply half_exceeds_iff in Hlen.
  assert (E : run self agent (mkContext messages (map transport_emit ids) md)
              = (map (fun i => Emit i limit_notice md) ids, inr tt)).
  { unfold run, run_agent. rewrite limit_exceeded_over by assumption.
    cbn [emit_funcs metadata]. rewrite for_each_transport.
    cbn. now rewrite !app_nil_r. }
  split; [exact E |].
  rewrite E. apply agent_invoked_emits.
Qed.

(** C2. When the allowlist [chat_ids] is empty the quota check never
    triggers: for every context, whatever the length of its history,
    [limit_exceeded] emits nothing and returns false, and [run_agent]
    hands the turn to the agent with the wrapped callbacks. *)
Theorem no_allowlist_no_quota
        (self : GirlfriendGPT) (agent : Agent) (context : AgentContext) :
  chat_ids (config self) = EmptyString ->
  limit_exceeded self context = ([], inr false)
  /\ run self agent context
     = base agent
            (set_emit_funcs context
               (map (wrap (voice_tool self) context) (emit_funcs context)))
  /\ hd_error (events (run self agent context)) = Some (AgentInvoked agent).
Proof.
  intros Hids.
  assert (E : limit_exceeded self context = ret false)
    by now apply limit_exceeded_no_allowlist.
  split; [exact E |].
  assert (R : run self agent context
              = base agent
                     (set_emit_funcs context
                        (map (wrap (voice_tool self) context)
                             (emit_funcs context)))).
  { unfold run, run_agent. rewrite E. now rewrite bind_ret_l. }
  split; [exact R |].
  rewrite R. unfold base, AgentService_run_agent.
  rewrite events_bind. reflexivity.
Qed.

(** *** One block of a batch *)

Lemma wrap_split (speech : option Tool) (context : AgentContext)
      (emit_func : EmitFunc) (md : Metadata)
      (before after : list Block) (block : Block) :
  wrap speech context emit_func (before ++ block :: after) md
  = (wrap speech context emit_func before md ;;
     body speech context emit_func md block ;;
     wrap speech context emit_func after md).
Proof. unfold wrap_emit. now rewrite for_each_app. Qed.

Lemma wrap_one (speech : option Tool) (context : AgentContext)
      (emit_func : EmitFunc) (md : Metadata) (block : Block) :
  wrap speech context emit_func [block] md
  = body speech context emit_func md block.
Proof. unfold wrap_emit. apply for_each_one. Qed.

Lemma body_non_text (speech : option Tool) (context : AgentContext)
      (emit_func : EmitFunc) (md : Metadata) (block : Block) :
  is_text block = false ->
  body speech context emit_func md block = emit_func [block] md.
Proof. intros H. unfold wrapper_block. now rewrite H. Qed.


Lemma body_text_only (context : AgentContext)
      (emit_func : EmitFunc) (md : Metadata) (block : Block) :
  is_text block = true ->
  clean_text (text block) <> EmptyString ->
  body None context emit_func md block
  = emit_func [set_text block (clean_text (text block))] md.
Proof.
  intros H E. unfold wrapper_block. apply truthy_nonempty in E.
  rewrite H, E. rewrite <- bind_unit_ext. apply bind_ret_r.
Qed.

(** With a tool the audio branch runs: the tool is called on the
    sanitized block, the first block of its answer is made public and
    delivered. *)
Lemma body_speech (tool : Tool) (context : AgentContext)
      (emit_func : EmitFunc) (md : Metadata) (block : Block) :
  is_text block = true ->
  clean_text (text block) <> EmptyString ->
  body (Some tool) context emit_func md block
  = (emit_func [set_text block (clean_text (text block))] md ;;
     out <- lift (speech_run tool
                    [set_text block (clean_text (text block))]
                    (chat_history_messages context) (metadata context)) ;;
     audio_block <- item0 out ;;
     emit_func [set_public_data audio_block true] md).
Proof.
  intros H E. unfold wrapper_block. apply truthy_nonempty in E.
  now rewrite H, E.
Qed.

Lemma body_speech_audio (tool : Tool) (context : AgentContext)
      (emit_func : EmitFunc) (md : Metadata) (block : Block)
      (sanitized : string) (audio : Block) (more : list Block) :
  is_text block = true ->
  clean_text (text block) = sanitized ->
  sanitized <> EmptyString ->
  speech_run tool [set_text block sanitized]
             (chat_history_messages context) (metadata context)
  = inr (audio :: more) ->
  body (Some tool) context emit_func md block
  = (emit_func [set_text block sanitized] md ;;
     emit_func [set_public_data audio true] md).
Proof.
  intros H E Hne Hrun. subst sanitized.
  rewrite body_speech by assumption. rewrite Hrun.
  change (lift (inr (audio :: more))) with (ret (audio :: more)).
  rewrite bind_ret_l. cbn [item0]. now rewrite bind_ret_l.
Qed.

(** C3. A text message of a batch whose sanitized text is non-empty,
    with a speech tool that answers with an audio block: the wrapped
    callback makes exactly two calls of the original callback for it,
    first with the message whose text is now the sanitized text, then
    with the audio block that the tool made from that message, its
    public flag set; these come after the calls for the messages
    before it and ahead of those for the messages after it. *)
Theorem text_then_audio
        (tool : Tool) (context : AgentContext) (emit_func : EmitFunc)
        (md : Metadata) (before after : list Block) (block : Block)
        (sanitized : string) (audio : Block) (more : list Block) :
  is_text block = true ->
  clean_text (text block) = sanitized ->
  sanitized <> EmptyString ->
  speech_run tool [set_text block sanitized]
             (chat_history_messages context) (metadata context)
  = inr (audio :: more) ->
  wrap (Some tool) context emit_func (before ++ block :: after) md
  = (wrap (Some tool) context emit_func before md ;;
     emit_func [set_text block sanitized] md ;;
     emit_func [set_public_data audio true] md ;;
     wrap (Some tool) context emit_func after md)
  /\ (forall i,
         wrap (Some tool) context (transport_emit i) [block] md
         = ([Emit i [set_text block sanitized] md;
             Emit i [set_public_data audio true] md], inr tt))
  /\ text (set_text block sanitized) = Some sanitized
  /\ public_data (set_public_data audio true) = true.
Proof.
  intros H E Hne Hrun. repeat split.
  - rewrite wrap_split.
    rewrite (@body_speech_audio tool context _ md block sanitized audio more H E Hne Hrun).
    now rewrite bind_assoc.
  - intros i. rewrite wrap_one.
    now rewrite (@body_speech_audio tool context _ md block sanitized audio more H E Hne Hrun).
Qed.
(** Without a tool a text message with non-empty sanitized text is
    delivered once, sanitized, and nothing else is. *)
Lemma text_only_without_tool
      (context : AgentContext) (emit_func : EmitFunc) (md : Metadata)
      (before after : list Block) (block : Block) :
  is_text block = true ->
  clean_text (text block) <> EmptyString ->
  wrap None context emit_func (before ++ block :: after) md
  = (wrap None context emit_func before md ;;
     emit_func [set_text block (clean_text (text block))] md ;;
     wrap None context emit_func after md).
Proof.
  intros H E. rewrite wrap_split. now rewrite body_text_only.
Qed.


Lemma events_seq {A B} (m : M A) (k : M B) :
  events (m ;; k) = events m ++ (if returned m then events k else []).
Proof.
  rewrite events_bind. unfold returned. now destruct (outcome m).
Qed.

(** C6. A batch is processed block by block in the order given: the
    calls made for a batch are the calls for its first block followed by
    those for the rest, the calls for a concatenation are the calls for
    the first part followed by those for the second (which are made
    unless the first part raised), and the calls for one block are
    nothing, or the block itself, or its sanitized text alone, or its
    sanitized text followed by its audio. *)
Theorem batch_in_order
        (speech : option Tool) (context : AgentContext) (emit_func : EmitFunc)
        (md : Metadata) (xs ys : list Block) :
  wrap speech context emit_func (xs ++ ys) md
  = (wrap speech context emit_func xs md ;;
     wrap speech context emit_func ys md)
  /\ events (wrap speech context emit_func (xs ++ ys) md)
     = events (wrap speech context emit_func xs md)
       ++ (if returned (wrap speech context emit_func xs md)
           then events (wrap speech context emit_func ys md) else [])
  /\ (forall block rest,
         wrap speech context emit_func (block :: rest) md
         = (wrap speech context emit_func [block] md ;;
            wrap speech context emit_func rest md))
  /\ (forall i block,
         let calls := events (wrap speech context (transport_emit i) [block] md) in
         let sanitized := set_text block (clean_text (text block)) in
         calls = []
         \/ calls = [Emit i [block] md]
         \/ calls = [Emit i [sanitized] md]
         \/ exists audio,
             calls = [Emit i [sanitized] md;
                      Emit i [set_public_data audio true] md]).
Proof.
  assert (S : wrap speech context emit_func (xs ++ ys) md
              = (wrap speech context emit_func xs md ;;
                 wrap speech context emit_func ys md))
    by (unfold wrap_emit; apply for_each_app).
  split; [exact S |]. split; [rewrite S; apply events_seq |]. split.
  - intros block rest. rewrite wrap_one. reflexivity.
  - intros i block calls sanitized. subst calls sanitized.
    rewrite wrap_one. unfold wrapper_block.
    destruct (is_text block); [| now right; left].
    destruct (truthy (clean_text (text block))); [| now left].
    destruct speech as [tool |]; [| now right; right; left].
    destruct (speech_run tool _ _ _) as [e | [| audio more]].
    + now right; right; left.
    + now right; right; left.
    + right; right; right. now exists audio.
Qed.

(** C7. A message that is not text is handed to the original callback
    once, as it is, between the calls for the messages before and after
    it: its text is not sanitized or changed and no audio is made. *)
Theorem non_text_passthrough
        (speech : option Tool) (context : AgentContext) (emit_func : EmitFunc)
        (md : Metadata) (before after : list Block) (block : Block) :
  is_text block = false ->
  wrap speech context emit_func (before ++ block :: after) md
  = (wrap speech context emit_func before md ;;
     emit_func [block] md ;;
     wrap speech context emit_func after md)
  /\ wrap speech context emit_func [block] md = emit_func [block] md
  /\ (forall i,
         wrap speech context (transport_emit i) [block] md
         = ([Emit i [block] md], inr tt)).
Proof.
  intros H. repeat split.
  - rewrite wrap_split. now rewrite body_non_text.
  - rewrite wrap_one. now apply body_non_text.
  - intros i. rewrite wrap_one. now rewrite body_non_text.
Qed.

Lemma limit_exceeded_passed (self : GirlfriendGPT) (context : AgentContext) :
  outcome (limit_exceeded self context) = inr false ->
  limit_exceeded self context = ret false.
Proof.
  unfold limit_exceeded.
  destruct (truthy _); [| reflexivity].
  destruct (gt_int _ _); [| reflexivity].
  destruct (for_each _ _) as [l [e | []]]; simpl; discriminate.
Qed.

(** C10. [voice_tool] returns a tool for every configuration, the
    voice credentials being empty or not, never [None]; so on a turn
    that passes the quota check the agent runs with callbacks wrapped
    around that tool, and for a text message with non-empty sanitized
    text such a callback takes the audio branch: after the text it calls
    the tool, takes the first block of the answer, makes it public and
    delivers it. *)
Theorem voice_tool_never_none
        (self : GirlfriendGPT) (agent : Agent) (context : AgentContext)
        (emit_func : EmitFunc) (md : Metadata) (block : Block) :
  outcome (limit_exceeded self context) = inr false ->
  is_text block = true ->
  clean_text (text block) <> EmptyString ->
  exists tool,
    voice_tool self = Some tool
    /\ generator_plugin_config tool
       = [("voice_id", elevenlabs_voice_id (config self));
          ("elevenlabs_api_key", elevenlabs_api_key (config self))]
    /\ run self agent context
       = base agent
              (set_emit_funcs context
                 (map (wrap (Some tool) context) (emit_funcs context)))
    /\ wrap (voice_tool self) context emit_func [block] md
       = (emit_func [set_text block (clean_text (text block))] md ;;
          out <- lift (speech_run tool
                         [set_text block (clean_text (text block))]
                         (chat_history_messages context) (metadata context)) ;;
          audio_block <- item0 out ;;
          emit_func [set_public_data audio_block true] md).
Proof.
  intros Hq H E. eexists. split; [reflexivity |]. split; [reflexivity |]. split.
  - unfold run_agent. rewrite (limit_exceeded_passed _ _ Hq).
    now rewrite bind_ret_l.
  - unfold voice_tool. rewrite wrap_one. now apply body_speech.
Qed.

End Turn.

(** ** Voice credentials and the speech tool *)

(** C4. The speech tool is meant to be absent when the voice
    credentials are: yet for a service whose [elevenlabs_api_key] and
    [elevenlabs_voice_id] are empty [voice_tool] still returns a tool,
    and the text message that the agent emits is followed by an audio
    message: two messages are delivered for it, not one. *)
Theorem absent_credentials_still_audio :
  elevenlabs_api_key (config (sample_service "")) = EmptyString
  /\ elevenlabs_voice_id (config (sample_service "")) = EmptyString
  /\ voice_tool (sample_service "")
     = Some {| generator_plugin_config :=
                 [("voice_id", ""); ("elevenlabs_api_key", "")] |}
  /\ run_agent sample_clean_text sample_speech_run sample_agent_steps
               (sample_service "") sample_agent (sample_context 0 [7%nat])
     = ([AgentInvoked sample_agent;
         Emit 7 [text_block "hello there"] [("chat_id", "42")];
         Emit 7 [{| text := None; mime_type := Some MP3;
                    url := Some "hello there"; public_data := true |}]
              [("chat_id", "42")]],
        inr tt).
Proof. repeat split. Qed.

(** ** Configuration defaults *)

(** C8, as the specification has it, fails: a configuration built from
    the required fields alone does not have [use_gpt4] false. *)
Lemma use_gpt4_default_is_not_false :
  ~ (forall kw cfg,
        given_elevenlabs_api_key kw = None ->
        given_elevenlabs_voice_id kw = None ->
        given_chat_ids kw = None ->
        given_use_gpt4 kw = None ->
        GirlFriendGPTConfig_new kw = inr cfg ->
        elevenlabs_api_key cfg = EmptyString
        /\ elevenlabs_voice_id cfg = EmptyString
        /\ chat_ids cfg = EmptyString
        /\ use_gpt4 cfg = false).
Proof.
  intros H.
  destruct (H (required_only "token" "Sacha" "a companion" "kind" "listens")
              (sample_config "")
              eq_refl eq_refl eq_refl eq_refl eq_refl) as (_ & _ & _ & F).
  discriminate F.
Qed.

(** C8, amended. A configuration constructed without values for the
    optional fields has the empty string for [elevenlabs_api_key],
    [elevenlabs_voice_id] and [chat_ids], and has [use_gpt4] true. *)
Theorem config_defaults (kw : ConfigArgs) (cfg : GirlFriendGPTConfig) :
  given_elevenlabs_api_key kw = None ->
  given_elevenlabs_voice_id kw = None ->
  given_chat_ids kw = None ->
  given_use_gpt4 kw = None ->
  GirlFriendGPTConfig_new kw = inr cfg ->
  elevenlabs_api_key cfg = EmptyString
  /\ elevenlabs_voice_id cfg = EmptyString
  /\ chat_ids cfg = EmptyString
  /\ use_gpt4 cfg = true.
Proof.
  intros Hk Hv Hc Hg. unfold GirlFriendGPTConfig_new.
  rewrite Hk, Hv, Hc, Hg.
  destruct (given_bot_token kw); [| discriminate].
  destruct (given_name kw); [| discriminate].
  destruct (given_byline kw); [| discriminate].
  destruct (given_identity kw); [| discriminate].
  destruct (given_behavior kw); [| discriminate].
  intros E. injection E as <-. repeat split.
Qed.

(** ** The constructor *)

Lemma SYSTEM_PROMPT_fields :
  fields SYSTEM_PROMPT
  = ["self.name"; "self.byline"; "identity_str"; "behavior_str"].
Proof. vm_compute. reflexivity. Qed.

Lemma format_SYSTEM_PROMPT (cfg : GirlFriendGPTConfig) :
  format SYSTEM_PROMPT (prompt_kwargs cfg) = inl (KeyError "self").
Proof. vm_compute. reflexivity. Qed.

(** A template whose fields are the keywords of the call is filled in. *)
Lemma format_matching_fields (cfg : GirlFriendGPTConfig) :
  format "You are {name}, {byline}." (prompt_kwargs cfg)
  = inr ("You are " ++ name cfg ++ ", " ++ byline cfg ++ ".")%string.
Proof. reflexivity. Qed.

(** C9. For every configuration the constructor of the service raises
    at the formatting of the system prompt and returns no service: the
    template's fields are [self.name], [self.byline], [identity_str] and
    [behavior_str], the call passes the keywords [name], [byline],
    [identity] and [behavior], none of the fields' argument names is
    among them, and the lookup of the first one, [self], fails. *)
Theorem init_always_raises (cfg : GirlFriendGPTConfig) :
  format SYSTEM_PROMPT (prompt_kwargs cfg) = inl (KeyError "self")
  /\ GirlfriendGPT_init cfg = inl (KeyError "self")
  /\ fields SYSTEM_PROMPT
     = ["self.name"; "self.byline"; "identity_str"; "behavior_str"]
  /\ map fst (prompt_kwargs cfg) = ["name"; "byline"; "identity"; "behavior"]
  /\ Forall (fun field => kw_get (prompt_kwargs cfg) (arg_name field) = None)
            (fields SYSTEM_PROMPT).
Proof.
  split; [apply format_SYSTEM_PROMPT |].
  split; [unfold GirlfriendGPT_init; rewrite format_SYSTEM_PROMPT;
          reflexivity |].
  split; [apply SYSTEM_PROMPT_fields |].
  split; [reflexivity |].
  rewrite SYSTEM_PROMPT_fields.
  repeat (constructor; [vm_compute; reflexivity |]). constructor.
Qed.

(** ** Runs on the sample platform *)

Lemma quota_exceeded_turn_witness :
  chat_ids (config (sample_service "42,43")) <> EmptyString
  /\ (inject_Z MAX_FREE_MESSAGES < truediv (Z.of_nat (length (history 12))) 2)%Q
  /\ run_agent sample_clean_text sample_speech_run sample_agent_steps
               (sample_service "42,43") sample_agent
               (sample_context 12 [0; 1]%nat)
     = ([Emit 0 limit_notice sample_metadata;
         Emit 1 limit_notice sample_metadata], inr tt).
Proof.
  assert (H1 : chat_ids (config (sample_service "42,43")) <> EmptyString)
    by discriminate.
  assert (H2 : (inject_Z MAX_FREE_MESSAGES
                < truediv (Z.of_nat (length (history 12))) 2)%Q)
    by (vm_compute; reflexivity).
  split; [exact H1 |]. split; [exact H2 |].
  exact (proj1 (@quota_exceeded_turn
                  sample_clean_text sample_speech_run sample_agent_steps
                  (sample_service "42,43") sample_agent
                  (history 12) [0; 1]%nat sample_metadata H1 H2)).
Defined.

Lemma no_allowlist_no_quota_witness :
  chat_ids (config (sample_service "")) = EmptyString
  /\ limit_exceeded (sample_service "") (sample_context 40 [0%nat])
     = ([], inr false)
  /\ hd_error (events (run_agent sample_clean_text sample_speech_run
                                 sample_agent_steps (sample_service "")
                                 sample_agent (sample_context 40 [0%nat])))
     = Some (AgentInvoked sample_agent).
Proof.
  split; [reflexivity |].
  destruct (@no_allowlist_no_quota
              sample_clean_text sample_speech_run sample_agent_steps
              (sample_service "") sample_agent (sample_context 40 [0%nat])
              eq_refl) as (E & _ & I).
  split; [exact E | exact I].
Defined.

Lemma text_then_audio_witness :
  wrap_emit sample_clean_text sample_speech_run (Some sample_tool)
            (sample_context 2 [0%nat]) (transport_emit 0)
            [image_block "cat.png"; Block_text "hello **there**";
             text_block "bye"]
            sample_metadata
  = ([Emit 0 [image_block "cat.png"] sample_metadata;
      Emit 0 [Block_text "hello there"] sample_metadata;
      Emit 0 [set_public_data (sample_audio "hello there") true] sample_metadata;
      Emit 0 [text_block "bye"] sample_metadata;
      Emit 0 [set_public_data (sample_audio "bye") true] sample_metadata],
     inr tt).
Proof.
  assert (Ht : is_text (Block_text "hello **there**") = true) by reflexivity.
  assert (Hc : sample_clean_text (text (Block_text "hello **there**"))
               = "hello there") by reflexivity.
  assert (Hn : "hello there" <> EmptyString) by discriminate.
  assert (Hs : sample_speech_run sample_tool
                 [set_text (Block_text "hello **there**") "hello there"]
                 (chat_history_messages (sample_context 2 [0%nat]))
                 (metadata (sample_context 2 [0%nat]))
               = inr [sample_audio "hello there"]) by reflexivity.
  destruct (@text_then_audio
              sample_clean_text sample_speech_run sample_tool
              (sample_context 2 [0%nat]) (transport_emit 0) sample_metadata
              [image_block "cat.png"] [text_block "bye"]
              (Block_text "hello **there**") "hello there"
              (sample_audio "hello there") [] Ht Hc Hn Hs) as (E & _).
  exact (eq_trans E eq_refl).
Defined.


Lemma non_text_passthrough_witness :
  is_text (image_block "cat.png") = false
  /\ wrap_emit sample_clean_text sample_speech_run (Some sample_tool)
               (sample_context 2 [0%nat]) (transport_emit 3)
               [image_block "cat.png"] sample_metadata
     = ([Emit 3 [image_block "cat.png"] sample_metadata], inr tt).
Proof.
  assert (Ht : is_text (image_block "cat.png") = false) by reflexivity.
  split; [exact Ht |].
  destruct (@non_text_passthrough
              sample_clean_text sample_speech_run (Some sample_tool)
              (sample_context 2 [0%nat]) (transport_emit 3) sample_metadata
              [] [] (image_block "cat.png") Ht) as (_ & _ & E).
  exact (E 3%nat).
Defined.

Lemma voice_tool_never_none_witness :
  outcome (limit_exceeded (sample_service "42") (sample_context 8 [0%nat]))
  = inr false
  /\ is_text (Block_text "hello") = true
  /\ sample_clean_text (text (Block_text "hello")) <> EmptyString
  /\ exists tool,
      voice_tool (sample_service "42") = Some tool
      /\ generator_plugin_config tool
         = [("voice_id", ""); ("elevenlabs_api_key", "")]
      /\ wrap_emit sample_clean_text failing_speech_run
                   (voice_tool (sample_service "42"))
                   (sample_context 8 [0%nat]) (transport_emit 0)
                   [Block_text "hello"] sample_metadata
         = ([Emit 0 [Block_text "hello"] sample_metadata],
            inl (ToolError "speech generation failed")).
Proof.
  assert (Hq : outcome (limit_exceeded (sample_service "42")
                                       (sample_context 8 [0%nat]))
               = inr false) by reflexivity.
  assert (Ht : is_text (Block_text "hello") = true) by reflexivity.
  assert (Hc : sample_clean_text (text (Block_text "hello")) <> EmptyString)
    by discriminate.
  split; [exact Hq |]. split; [exact Ht |]. split; [exact Hc |].
  destruct (@voice_tool_never_none
              sample_clean_text failing_speech_run sample_agent_steps
              (sample_service "42") sample_agent (sample_context 8 [0%nat])
              (transport_emit 0) sample_metadata (Block_text "hello")
              Hq Ht Hc) as (tool & Ev & Eg & _ & Ew).
  exists tool. split; [exact Ev |]. split; [exact Eg |].
  rewrite Ew. injection Ev as <-. reflexivity.
Defined.

Lemma config_defaults_witness :
  GirlFriendGPTConfig_new
    (required_only "token" "Sacha" "a companion" "kind" "listens")
  = inr (sample_config "")
  /\ elevenlabs_api_key (sample_config "") = EmptyString
  /\ elevenlabs_voice_id (sample_config "") = EmptyString
  /\ chat_ids (sample_config "") = EmptyString
  /\ use_gpt4 (sample_config "") = true.
Proof.
  split; [reflexivity |].
  exact (@config_defaults
           (required_only "token" "Sacha" "a companion" "kind" "listens")
           (sample_config "") eq_refl eq_refl eq_refl eq_refl eq_refl).
Defined.

(** The threshold on concrete histories: 8 and 10 messages pass, 11 and
    12 do not. *)
Example quota_on_histories :
  map (fun n => outcome (limit_exceeded (sample_service "42")
                                        (sample_context n [0%nat])))
      [8; 10; 11; 12]%nat
  = [inr false; inr false; inr true; inr true].
Proof. reflexivity. Qed.


(** * Further properties of [src/api.py] *)

(** ** The quota check *)

Lemma limit_exceeded_quota (self : GirlfriendGPT) (context : AgentContext) :
  limit_exceeded self context
  = if over_quota self (length (chat_history_messages context))
    then (for_each (emit_funcs context)
                   (fun func => func limit_notice (metadata context)) ;;
          ret true)
    else ret false.
Proof.
  unfold limit_exceeded, over_quota. rewrite quota_threshold.
  destruct (truthy _); [| reflexivity].
  now destruct (_ <? _)%nat.
Qed.

(** X3. On transport callbacks [limit_exceeded] returns true exactly
    when [chat_ids] is non-empty and the history has more than ten
    messages; it then has sent the notice to every callback, and
    otherwise has sent nothing. *)
Theorem limit_exceeded_exact
        (self : GirlfriendGPT) (messages : list Block) (ids : list nat)
        (md : Metadata) :
  limit_exceeded self (mkContext messages (map transport_emit ids) md)
  = (if over_quota self (length messages)
     then map (fun i => Emit i limit_notice md) ids else [],
     inr (over_quota self (length messages))).
Proof.
  rewrite limit_exceeded_quota. cbn [chat_history_messages emit_funcs metadata].
  destruct (over_quota self (length messages)); [| reflexivity].
  rewrite for_each_transport. cbn. now rewrite app_nil_r.
Qed.

(** X4. The identifiers listed in [chat_ids] are never looked at: two
    services whose allowlists are both non-empty, whatever they list,
    decide and act alike on every context. *)
Theorem allowlist_entries_ignored
        (self1 self2 : GirlfriendGPT) (context : AgentContext) :
  chat_ids (config self1) <> EmptyString ->
  chat_ids (config self2) <> EmptyString ->
  limit_exceeded self1 context = limit_exceeded self2 context.
Proof.
  intros H1 H2. rewrite !limit_exceeded_quota. unfold over_quota.
  apply truthy_nonempty in H1, H2. now rewrite H1, H2.
Qed.

Section MoreTurn.

Variable clean_text : option string -> string.
Variable speech_run :
  Tool -> list Block -> list Block -> Metadata -> Exn + list Block.
Variable agent_steps : Agent -> list Block -> list (nat * list Block).

Local Abbreviation run := (run_agent clean_text speech_run agent_steps).
Local Abbreviation base := (AgentService_run_agent agent_steps).
Local Abbreviation wrap := (wrap_emit clean_text speech_run).
Local Abbreviation body := (wrapper_block clean_text speech_run).

(** X5. When a callback raises while the notice is being sent, the
    callbacks before it have the notice, those after it get nothing,
    and [run_agent] raises the same exception without invoking the
    agent. *)
Theorem notice_stops_at_failing_callback
        (self : GirlfriendGPT) (agent : Agent) (messages : list Block)
        (ids : list nat) (e : Exn) (later : list EmitFunc) (md : Metadata) :
  chat_ids (config self) <> EmptyString ->
  (10 < length messages)%nat ->
  run self agent
      (mkContext messages
                 (map transport_emit ids ++ failing_emit e :: later) md)
  = (map (fun i => Emit i limit_notice md) ids, inl e).
Proof.
  intros Hids Hlen. unfold run_agent.
  rewrite limit_exceeded_over by assumption.
  cbn [emit_funcs metadata]. rewrite for_each_app, for_each_transport.
  cbn. now rewrite app_nil_r.
Qed.

Lemma base_invokes (agent : Agent) (context : AgentContext) :
  agent_invoked (events (base agent context)) = true.
Proof.
  unfold AgentService_run_agent. rewrite events_bind. reflexivity.
Qed.

(** X6. On transport callbacks the agent is invoked in exactly the
    turns that are not over the quota: [run_agent] reaches the agent if
    and only if [chat_ids] is empty or the history has at most ten
    messages. *)
Theorem agent_invoked_iff_within_quota
        (self : GirlfriendGPT) (agent : Agent) (messages : list Block)
        (ids : list nat) (md : Metadata) :
  agent_invoked
    (events (run self agent (mkContext messages (map transport_emit ids) md)))
  = negb (over_quota self (length messages)).
Proof.
  unfold run_agent. rewrite limit_exceeded_quota.
  cbn [chat_history_messages emit_funcs metadata].
  destruct (over_quota self (length messages)).
  - rewrite for_each_transport. cbn. rewrite !app_nil_r.
    apply agent_invoked_emits.
  - rewrite bind_ret_l. cbn [negb]. apply base_invokes.
Qed.

(** ** The wrapped callback *)

(** The calls made for one block on a transport callback. *)
Lemma body_calls (speech : option Tool) (context : AgentContext)
      (i : nat) (md : Metadata) (block : Block) :
  exists delivered,
    events (body speech context (transport_emit i) md block)
    = map (fun b => Emit i [b] md) delivered
    /\ (length delivered <= 2)%nat.
Proof.
  unfold wrapper_block.
  destruct (is_text block); [| exists [block]; split; [reflexivity | simpl; lia]].
  destruct (truthy (clean_text (text block)));
    [| exists []; split; [reflexivity | simpl; lia]].
  destruct speech as [tool |];
    [| eexists [_]; split; [reflexivity | simpl; lia]].
  destruct (speech_run tool _ _ _) as [e | [| audio more]].
  - eexists [_]. split; [reflexivity | simpl; lia].
  - eexists [_]. split; [reflexivity | simpl; lia].
  - eexists [_; _]. split; [reflexivity | simpl; lia].
Qed.

Lemma wrap_calls (speech : option Tool) (context : AgentContext)
      (i : nat) (md : Metadata) (blocks : list Block) :
  exists delivered,
    events (wrap speech context (transport_emit i) blocks md)
    = map (fun b => Emit i [b] md) delivered
    /\ (length delivered <= 2 * length blocks)%nat.
Proof.
  unfold wrap_emit. induction blocks as [| block rest IH].
  - exists []. split; [reflexivity | simpl; lia].
  - cbn [for_each]. rewrite events_bind.
    destruct (body_calls speech context i md block) as (d1 & E1 & L1).
    destruct IH as (d2 & E2 & L2). rewrite E1.
    destruct (outcome _).
    + exists d1. rewrite app_nil_r. split; [reflexivity | simpl; lia].
    + exists (d1 ++ d2). rewrite E2, map_app. split; [reflexivity |].
      rewrite length_app. simpl. lia.
Qed.

(** X7. Whatever batch a wrapped callback is given, every call it makes
    goes to its own original callback, carries the metadata it was
    called with, and carries exactly one block: batches are never
    passed on whole and no other callback is used. *)
Theorem wrapped_calls_are_single_blocks
        (speech : option Tool) (context : AgentContext)
        (i : nat) (md : Metadata) (blocks : list Block) :
  Forall (fun call => exists b, call = Emit i [b] md)
         (events (wrap speech context (transport_emit i) blocks md)).
Proof.
  destruct (wrap_calls speech context i md blocks) as (d & E & _).
  rewrite E. apply Forall_forall. intros call Hin.
  apply in_map_iff in Hin. destruct Hin as (b & <- & _). now exists b.
Qed.

(** X8. A wrapped callback makes at most two calls per block of the
    batch it is given. *)
Theorem wrapped_calls_bound
        (speech : option Tool) (context : AgentContext)
        (i : nat) (md : Metadata) (blocks : list Block) :
  (length (events (wrap speech context (transport_emit i) blocks md))
   <= 2 * length blocks)%nat.
Proof.
  destruct (wrap_calls speech context i md blocks) as (d & E & L).
  rewrite E, length_map. exact L.
Qed.

(** X9. A batch without any text block is delivered block by block:
    one call per block, in order, each block unchanged, and the wrapped
    callback returns. *)
Theorem non_text_batch_unbatched
        (speech : option Tool) (context : AgentContext)
        (i : nat) (md : Metadata) (blocks : list Block) :
  forallb (fun b => negb (is_text b)) blocks = true ->
  wrap speech context (transport_emit i) blocks md
  = (map (fun b => Emit i [b] md) blocks, inr tt).
Proof.
  unfold wrap_emit. induction blocks as [| block rest IH]; intros H.
  - reflexivity.
  - cbn [forallb] in H. apply andb_true_iff in H. destruct H as [Hb Hr].
    apply negb_true_iff in Hb.
    cbn [for_each]. rewrite body_non_text by assumption.
    rewrite (IH Hr). reflexivity.
Qed.

(** X10. A failure of the speech tool is not caught: the sanitized text
    of the message has been delivered, the tool's exception leaves the
    wrapped callback, and the messages after it in the batch are not
    processed. *)
Theorem speech_failure_propagates
        (tool : Tool) (context : AgentContext) (emit_func : EmitFunc)
        (md : Metadata) (before after : list Block) (block : Block)
        (e : Exn) :
  is_text block = true ->
  clean_text (text block) <> EmptyString ->
  speech_run tool [set_text block (clean_text (text block))]
             (chat_history_messages context) (metadata context)
  = inl e ->
  wrap (Some tool) context emit_func (before ++ block :: after) md
  = (wrap (Some tool) context emit_func before md ;;
     emit_func [set_text block (clean_text (text block))] md ;;
     raise e).
Proof.
  intros H E Hrun. rewrite wrap_split, body_speech by assumption.
  rewrite Hrun. f_equal.
  destruct (emit_func _ md) as [l [e1 | []]]; reflexivity.
Qed.

(** X11. A speech tool that answers with no block makes the wrapped
    callback raise [IndexError] after the sanitized text has been
    delivered; the rest of the batch is not processed. *)
Theorem speech_empty_answer_raises
        (tool : Tool) (context : AgentContext) (emit_func : EmitFunc)
        (md : Metadata) (before after : list Block) (block : Block) :
  is_text block = true ->
  clean_text (text block) <> EmptyString ->
  speech_run tool [set_text block (clean_text (text block))]
             (chat_history_messages context) (metadata context)
  = inr [] ->
  wrap (Some tool) context emit_func (before ++ block :: after) md
  = (wrap (Some tool) context emit_func before md ;;
     emit_func [set_text block (clean_text (text block))] md ;;
     raise IndexError).
Proof.
  intros H E Hrun. rewrite wrap_split, body_speech by assumption.
  rewrite Hrun. f_equal.
  destruct (emit_func _ md) as [l [e1 | []]]; reflexivity.
Qed.

(** X12. With a sanitizer that leaves a sanitized text as it is (so
    that a block met again in the batch, its text already replaced, is
    sanitized to the same text) and a speech tool that answers every
    block [b] with [audio_of b] first, the calls of a wrapped callback
    for a batch are the concatenation, in the order of the batch, of the
    calls expected for each block, and the callback returns. *)
Theorem wrapped_batch_calls
        (tool : Tool) (context : AgentContext) (audio_of : Block -> Block)
        (i : nat) (md : Metadata) (blocks : list Block) :
  (forall t, clean_text (Some (clean_text t)) = clean_text t) ->
  (forall b, exists more,
        speech_run tool [b] (chat_history_messages context) (metadata context)
        = inr (audio_of b :: more)) ->
  wrap (Some tool) context (transport_emit i) blocks md
  = (flat_map (expected_calls clean_text audio_of i md) blocks, inr tt).
Proof.
  intros _ Hrun. unfold wrap_emit. induction blocks as [| block rest IH].
  - reflexivity.
  - cbn [for_each flat_map]. rewrite IH. unfold expected_calls, wrapper_block.
    destruct (is_text block); [| reflexivity].
    destruct (truthy (clean_text (text block))); [| reflexivity].
    destruct (Hrun (set_text block (clean_text (text block)))) as (more & ->).
    reflexivity.
Qed.

End MoreTurn.

(** * Properties of the companion page *)

Lemma u_for_show {A} (xs : list A) (body : A -> U unit) (f : A -> UIEvent)
      (st : SessionState) :
  (forall x s, body x s = (s, [f x], inr tt)) ->
  u_for xs body st = (st, map f xs, inr tt).
Proof.
  intros Hbody. induction xs as [| x xs IH]; [reflexivity |].
  cbn [u_for map]. unfold u_bind. now rewrite Hbody, IH.
Qed.

Lemma u_bind_ok {A B} (m : U A) (k : A -> U B) (st st1 : SessionState)
      (l1 : list UIEvent) (a : A) :
  m st = (st1, l1, inr a) -> u_bind m k st = u_after l1 (k a st1).
Proof. intros H. unfold u_bind, u_after. now rewrite H. Qed.

Lemma u_bind_stop {A B} (m : U A) (k : A -> U B) (st st1 : SessionState)
      (l1 : list UIEvent) (s : Stop) :
  m st = (st1, l1, inl s) -> u_bind m k st = (st1, l1, inl s).
Proof. intros H. unfold u_bind. now rewrite H. Qed.

Lemma u_after_nil {A} (x : SessionState * list UIEvent * (Stop + A)) :
  u_after [] x = x.
Proof. now destruct x as [[st l] r]. Qed.

Lemma u_after_after {A} (l1 l2 : list UIEvent)
      (x : SessionState * list UIEvent * (Stop + A)) :
  u_after l1 (u_after l2 x) = u_after (l1 ++ l2) x.
Proof. destruct x as [[st l] r]. cbn. now rewrite app_assoc. Qed.

Lemma with_messages_same (st : SessionState) (ms : list ChatMessage) :
  messages st = Some ms -> with_messages st ms = st.
Proof. destruct st. cbn. now intros ->. Qed.

Lemma with_messages_twice (st : SessionState) (a b : list ChatMessage) :
  with_messages (with_messages st a) b = with_messages st b.
Proof. reflexivity. Qed.

Lemma show_profile_img_run (st_image : string -> Exn + unit)
      (st : SessionState) :
  opens st_image (companion_profile_img st) ->
  show_profile_img st_image st
  = (st,
     match companion_profile_img st with
     | Some src => if truthy src then [ShowImage src] else []
     | None => []
     end, inr tt).
Proof.
  unfold show_profile_img, opens. intros Ho.
  erewrite u_bind_ok by reflexivity. rewrite u_after_nil.
  destruct (companion_profile_img st) as [src |]; [| reflexivity].
  destruct (truthy src); [| reflexivity].
  unfold u_bind. now rewrite (Ho eq_refl).
Qed.


Lemma init_messages_run (st : SessionState) (ms : list ChatMessage) :
  opening st = Some ms ->
  init_messages st = (with_messages st ms, [], inr tt).
Proof.
  unfold opening, init_messages. intros H.
  erewrite u_bind_ok by reflexivity. rewrite u_after_nil.
  destruct (messages st) as [ms0 |] eqn:Em.
  - injection H as <-. now rewrite with_messages_same.
  - destruct (companion_first_message st) as [first |] eqn:Ef; [| discriminate].
    injection H as <-. unfold u_bind, get_companion_first_message.
    now rewrite Ef.
Qed.

Lemma append_message_run (st : SessionState) (ms : list ChatMessage)
      (m : ChatMessage) :
  messages st = Some ms ->
  append_message m st = (with_messages st (ms ++ [m]), [], inr tt).
Proof.
  intros H. unfold append_message, u_bind, get_messages. now rewrite H.
Qed.

Section PageProperties.

Variable to_snake : string -> string.
Variable get_instance : string -> Kwargs -> Exn + CompanionInstance.
Variable add_resource : CompanionInstance -> string -> Exn + unit.
Variable invoke : CompanionInstance -> string -> Exn + string.
Variable get_api_key : U unit.
Variable st_image : string -> Exn + unit.

Local Abbreviation chat := (chat_page invoke get_api_key st_image).
Local Abbreviation exchange := (chat_exchange invoke get_api_key).
Local Abbreviation form_page :=
  (creation_page to_snake get_instance add_resource).
Local Abbreviation script :=
  (page to_snake get_instance add_resource invoke get_api_key st_image).

(** The chat page up to the prompt. *)
Lemma chat_page_top (inst : CompanionInstance) (inp : ChatInputs)
      (st : SessionState) (nm : string) (ms : list ChatMessage) :
  kw_get (instance_config inst) "name" = Some nm ->
  new_bot_clicked inp = false ->
  opens st_image (companion_profile_img st) ->
  opening st = Some ms ->
  chat inst inp st
  = u_after (chat_top nm st ms)
            (match chat_input inp with
             | Some prompt =>
                 if truthy prompt
                 then exchange inst prompt (with_messages st ms)
                 else (with_messages st ms, [], inr tt)
             | None => (with_messages st ms, [], inr tt)
             end).
Proof.
  intros Hn Hb Hi Hm. unfold chat_page, chat_top, dict_item.
  rewrite Hn, Hb.
  do 4 (erewrite u_bind_ok by reflexivity; cbn beta).
  erewrite u_bind_ok by (apply show_profile_img_run; exact Hi).
  erewrite u_bind_ok by (apply init_messages_run; exact Hm).
  erewrite u_bind_ok by reflexivity.
  erewrite u_bind_ok by (apply (u_for_show _ _ show_message); reflexivity).
  rewrite !u_after_after, !app_nil_r. cbn [app].
  destruct (chat_input inp) as [p |]; [destruct (truthy p) |]; reflexivity.
Qed.

Lemma chat_exchange_run (inst : CompanionInstance) (p : string)
      (st : SessionState) (ms : list ChatMessage) (key_ui : list UIEvent) :
  messages st = Some ms ->
  get_api_key st = (st, key_ui, inr tt) ->
  exchange inst p st
  = match invoke inst p with
    | inr r =>
        (with_messages st (ms ++ [user_says p; assistant_says r]),
         key_ui ++ [ShowChat "user" p; CallInvoke inst p;
                    ShowChat "assistant" r],
         inr tt)
    | inl e =>
        (with_messages st (ms ++ [user_says p]),
         key_ui ++ [ShowChat "user" p; CallInvoke inst p],
         inl (Raised e))
    end.
Proof.
  intros Hm Hk. unfold chat_exchange.
  erewrite u_bind_ok by exact Hk.
  erewrite u_bind_ok by (apply append_message_run; exact Hm).
  do 2 (erewrite u_bind_ok by reflexivity).
  destruct (invoke inst p) as [e | r].
  - erewrite u_bind_stop by reflexivity. reflexivity.
  - erewrite u_bind_ok by reflexivity.
    erewrite u_bind_ok by reflexivity.
    erewrite append_message_run by reflexivity.
    cbn. now rewrite <- app_assoc.
Qed.

(** X13. A run of the chat page with a non-empty prompt, when the key
    check passes and the companion answers, shows the page and the
    transcript so far, then the prompt and the answer, and leaves a
    transcript extended by exactly these two messages, the user's first. *)
Theorem chat_prompt_appends_exchange
        (inst : CompanionInstance) (inp : ChatInputs) (st : SessionState)
        (nm p r : string) (ms : list ChatMessage) (key_ui : list UIEvent) :
  kw_get (instance_config inst) "name" = Some nm ->
  new_bot_clicked inp = false ->
  opens st_image (companion_profile_img st) ->
  opening st = Some ms ->
  chat_input inp = Some p ->
  p <> EmptyString ->
  get_api_key (with_messages st ms) = (with_messages st ms, key_ui, inr tt) ->
  invoke inst p = inr r ->
  chat inst inp st
  = (with_messages st (ms ++ [user_says p; assistant_says r]),
     chat_top nm st ms ++ key_ui
       ++ [ShowChat "user" p; CallInvoke inst p; ShowChat "assistant" r],
     inr tt).
Proof.
  intros Hn Hb Hi Hm Hp Hne Hk Hr.
  rewrite (@chat_page_top inst inp st nm ms Hn Hb Hi Hm), Hp.
  apply truthy_nonempty in Hne. rewrite Hne.
  rewrite (@chat_exchange_run inst p (with_messages st ms) ms key_ui eq_refl Hk).
  rewrite Hr. reflexivity.
Qed.

(** X14. When the companion fails to answer, the exception ends the
    run and the user's message stays in the transcript without an
    answer after it. *)
Theorem failed_answer_leaves_prompt
        (inst : CompanionInstance) (inp : ChatInputs) (st : SessionState)
        (nm p : string) (e : Exn) (ms : list ChatMessage)
        (key_ui : list UIEvent) :
  kw_get (instance_config inst) "name" = Some nm ->
  new_bot_clicked inp = false ->
  opens st_image (companion_profile_img st) ->
  opening st = Some ms ->
  chat_input inp = Some p ->
  p <> EmptyString ->
  get_api_key (with_messages st ms) = (with_messages st ms, key_ui, inr tt) ->
  invoke inst p = inl e ->
  chat inst inp st
  = (with_messages st (ms ++ [user_says p]),
     chat_top nm st ms ++ key_ui ++ [ShowChat "user" p; CallInvoke inst p],
     inl (Raised e)).
Proof.
  intros Hn Hb Hi Hm Hp Hne Hk Hr.
  rewrite (@chat_page_top inst inp st nm ms Hn Hb Hi Hm), Hp.
  apply truthy_nonempty in Hne. rewrite Hne.
  rewrite (@chat_exchange_run inst p (with_messages st ms) ms key_ui eq_refl Hk).
  rewrite Hr. reflexivity.
Qed.

(** X15. A run of the chat page without a prompt, or with an empty
    one, shows the page and the transcript and does nothing else: the
    key is not checked, the companion is not invoked, and the transcript
    is the one the run started from. *)
Theorem chat_without_prompt
        (inst : CompanionInstance) (inp : ChatInputs) (st : SessionState)
        (nm : string) (ms : list ChatMessage) :
  kw_get (instance_config inst) "name" = Some nm ->
  new_bot_clicked inp = false ->
  opens st_image (companion_profile_img st) ->
  opening st = Some ms ->
  submitted [inp] = [] ->
  chat inst inp st = (with_messages st ms, chat_top nm st ms, inr tt).
Proof.
  intros Hn Hb Hi Hm Hs.
  rewrite (@chat_page_top inst inp st nm ms Hn Hb Hi Hm).
  unfold submitted in Hs. cbn [flat_map] in Hs.
  destruct (chat_input inp) as [p |]; [destruct (truthy p) |];
    try discriminate; cbn; now rewrite app_nil_r.
Qed.

(** X16. Pressing the new-bot button clears the instance and nothing
    else, and asks for a rerun before anything but the button is shown:
    the transcript, the first message and the profile picture of the
    old companion stay in the session. *)
Theorem new_bot_keeps_transcript
        (inst : CompanionInstance) (inp : ChatInputs) (st : SessionState)
        (nm : string) :
  kw_get (instance_config inst) "name" = Some nm ->
  new_bot_clicked inp = true ->
  chat inst inp st
  = (with_instance st None, [ShowButton "+ New bot"], inl Rerun).
Proof.
  intros Hn Hb. unfold chat_page, dict_item. rewrite Hn, Hb.
  do 2 (erewrite u_bind_ok by reflexivity; cbn beta).
  erewrite u_bind_stop; [reflexivity |].
  erewrite u_bind_ok by reflexivity. reflexivity.
Qed.

(** X17. When the instance's configuration has no [name], every run
    of the script on that session raises [KeyError] before anything is
    shown, the new-bot button included, and leaves the session as it
    was. *)
Theorem missing_name_blocks_page
        (inst : CompanionInstance) (form : FormInputs) (inp : ChatInputs)
        (st : SessionState) :
  instance st = Some inst ->
  kw_get (instance_config inst) "name" = None ->
  script form inp st = (st, [], inl (Raised (KeyError "name"))).
Proof.
  intros Hi Hn. unfold page. rewrite Hi.
  unfold chat_page, dict_item. rewrite Hn.
  erewrite u_bind_stop by reflexivity. reflexivity.
Qed.


(** The session state after the form was submitted. *)
Lemma creation_state (form : FormInputs) (st : SessionState)
      (inst : CompanionInstance) :
  spin_up_clicked form = true ->
  get_instance (to_snake (personality form)) (companion_config form)
  = inr inst ->
  state_after (form_page form) st
  = {| instance := Some inst;
       companion_profile_img := Some (profile_picture form);
       companion_first_message := Some (first_message form);
       messages := messages st |}.
Proof.
  intros Hc Hg. unfold state_after, creation_page. rewrite Hc, Hg.
  do 5 (erewrite u_bind_ok by reflexivity; cbn beta).
  destruct (truthy (youtube_video_url form)); [| reflexivity].
  erewrite u_bind_ok by reflexivity.
  destruct (add_resource inst (youtube_video_url form)) as [e | []].
  - erewrite u_bind_stop by reflexivity. reflexivity.
  - erewrite u_bind_ok by reflexivity.
    erewrite u_bind_ok by reflexivity. reflexivity.
Qed.

(** X18. After the form is submitted in a session without transcript
    and the platform returns an instance, the next run shows the chat
    page of that instance with a transcript that consists of the first
    message typed in the form, said by the assistant. *)
Theorem created_companion_greets
        (form next_form : FormInputs) (inp0 inp : ChatInputs)
        (st : SessionState) (inst : CompanionInstance) (nm : string) :
  instance st = None ->
  messages st = None ->
  spin_up_clicked form = true ->
  get_instance (to_snake (personality form)) (companion_config form)
  = inr inst ->
  kw_get (instance_config inst) "name" = Some nm ->
  opens st_image (Some (profile_picture form)) ->
  new_bot_clicked inp = false ->
  submitted [inp] = [] ->
  let created := state_after (script form inp0) st in
  script next_form inp created
  = (with_messages created [assistant_says (first_message form)],
     chat_top nm created [assistant_says (first_message form)],
     inr tt).
Proof.
  intros Hi Hm Hc Hg Hn Hpic Hb Hs created.
  assert (E : created
              = {| instance := Some inst;
                   companion_profile_img := Some (profile_picture form);
                   companion_first_message := Some (first_message form);
                   messages := None |}).
  { unfold created, state_after, page. rewrite Hi.
    rewrite <- Hm. now apply creation_state. }
  unfold page at 1. rewrite E. cbn [instance].
  apply chat_without_prompt; try assumption; reflexivity.
Qed.

(** X19. The transcript outlives the companion: after the new-bot
    button is pressed and another companion is created through the
    form, the chat page of the new companion shows the transcript of
    the old one, and the first message typed for the new companion is
    stored but not shown. *)
Theorem new_companion_inherits_transcript
        (form0 form next_form : FormInputs) (inp0 press inp : ChatInputs)
        (st : SessionState) (old new : CompanionInstance)
        (nm nm' : string) (ms : list ChatMessage) :
  instance st = Some old ->
  messages st = Some ms ->
  kw_get (instance_config old) "name" = Some nm ->
  new_bot_clicked press = true ->
  spin_up_clicked form = true ->
  get_instance (to_snake (personality form)) (companion_config form)
  = inr new ->
  kw_get (instance_config new) "name" = Some nm' ->
  opens st_image (Some (profile_picture form)) ->
  new_bot_clicked inp = false ->
  submitted [inp] = [] ->
  let left := state_after (script form0 press) st in
  let created := state_after (script form inp0) left in
  instance left = None
  /\ instance created = Some new
  /\ companion_first_message created = Some (first_message form)
  /\ script next_form inp created = (created, chat_top nm' created ms, inr tt).
Proof.
  intros Hi Hm Hn Hp Hc Hg Hn' Hpic Hb Hs left created.
  assert (El : left = with_instance st None).
  { unfold left, state_after, page. rewrite Hi.
    now rewrite (@new_bot_keeps_transcript old press st nm Hn Hp). }
  assert (Ec : created
               = {| instance := Some new;
                    companion_profile_img := Some (profile_picture form);
                    companion_first_message := Some (first_message form);
                    messages := Some ms |}).
  { unfold created. rewrite El, <- Hm.
    exact (@creation_state form (with_instance st None) new Hc Hg). }
  split; [now rewrite El |]. rewrite Ec. cbn [instance companion_first_message].
  split; [reflexivity |]. split; [reflexivity |].
  unfold page. cbn [instance].
  erewrite chat_without_prompt; try eassumption; reflexivity.
Qed.

Lemma chat_step_state (inst : CompanionInstance) (inp : ChatInputs)
      (st : SessionState) (nm : string) (ms : list ChatMessage)
      (answer : string -> string) :
  kw_get (instance_config inst) "name" = Some nm ->
  (forall s, exists l, get_api_key s = (s, l, inr tt)) ->
  (forall p, invoke inst p = inr (answer p)) ->
  new_bot_clicked inp = false ->
  opens st_image (companion_profile_img st) ->
  opening st = Some ms ->
  state_after (chat inst inp) st
  = with_messages st
      (ms ++ flat_map (fun p => [user_says p; assistant_says (answer p)])
                      (submitted [inp])).
Proof.
  intros Hn Hk Hr Hb Hi Hm. unfold state_after.
  rewrite (@chat_page_top inst inp st nm ms Hn Hb Hi Hm).
  unfold submitted. cbn [flat_map].
  destruct (chat_input inp) as [p |]; [destruct (truthy p) |];
    cbn [app flat_map]; rewrite ?app_nil_r; try reflexivity.
  destruct (Hk (with_messages st ms)) as (l & Hl).
  rewrite (@chat_exchange_run inst p (with_messages st ms) ms l eq_refl Hl).
  rewrite Hr. reflexivity.
Qed.

Lemma submitted_cons (inp : ChatInputs) (inputs : list ChatInputs) :
  submitted (inp :: inputs) = submitted [inp] ++ submitted inputs.
Proof. unfold submitted. cbn [flat_map]. now rewrite app_nil_r. Qed.

Lemma chat_session_state (inst : CompanionInstance) (nm : string)
      (answer : string -> string) (inputs : list ChatInputs) :
  kw_get (instance_config inst) "name" = Some nm ->
  (forall s, exists l, get_api_key s = (s, l, inr tt)) ->
  (forall p, invoke inst p = inr (answer p)) ->
  Forall (fun inp => new_bot_clicked inp = false) inputs ->
  forall (st : SessionState) (ms : list ChatMessage),
    opens st_image (companion_profile_img st) ->
    messages st = Some ms ->
    chat_session invoke get_api_key st_image inst inputs st
    = with_messages st
        (ms ++ flat_map (fun p => [user_says p; assistant_says (answer p)])
                        (submitted inputs)).
Proof.
  intros Hn Hk Hr Hall. induction Hall as [| inp inputs Hb _ IH];
    intros st ms Hi Hm.
  - cbn. rewrite app_nil_r. symmetry. now apply with_messages_same.
  - cbn [chat_session fold_left].
    assert (Ho : opening st = Some ms) by (unfold opening; now rewrite Hm).
    rewrite (@chat_step_state inst inp st nm _ answer Hn Hk Hr Hb Hi Ho).
    unfold chat_session in IH. rewrite (IH (with_messages st _) _ Hi eq_refl).
    rewrite with_messages_twice, (submitted_cons inp inputs), flat_map_app.
    now rewrite app_assoc.
Qed.

(** X20. Over any series of runs of the chat page in which the key
    check passes and the companion answers, starting from a session
    without transcript, the transcript is the first message followed,
    for each non-empty prompt in the order submitted, by the prompt and
    its answer; runs without a prompt add nothing. *)
Theorem chat_session_transcript
        (inst : CompanionInstance) (nm first : string)
        (answer : string -> string)
        (inp : ChatInputs) (inputs : list ChatInputs) (st : SessionState) :
  kw_get (instance_config inst) "name" = Some nm ->
  (forall s, exists l, get_api_key s = (s, l, inr tt)) ->
  (forall p, invoke inst p = inr (answer p)) ->
  Forall (fun i => new_bot_clicked i = false) (inp :: inputs) ->
  opens st_image (companion_profile_img st) ->
  messages st = None ->
  companion_first_message st = Some first ->
  messages (chat_session invoke get_api_key st_image inst (inp :: inputs) st)
  = Some (transcript first answer (submitted (inp :: inputs))).
Proof.
  intros Hn Hk Hr Hall Hi Hm Hf.
  inversion Hall as [| ? ? Hb Hrest]; subst.
  assert (Ho : opening st = Some [assistant_says first])
    by (unfold opening; now rewrite Hm, Hf).
  cbn [chat_session fold_left].
  rewrite (@chat_step_state inst inp st nm _ answer Hn Hk Hr Hb Hi Ho).
  pose proof (@chat_session_state inst nm answer inputs Hn Hk Hr Hrest) as S.
  unfold chat_session in S. rewrite (S (with_messages st _) _ Hi eq_refl).
  cbn [messages with_messages]. unfold transcript.
  rewrite (submitted_cons inp inputs), flat_map_app.
  now rewrite <- app_assoc.
Qed.

End PageProperties.

(** ** Runs of the further properties on the sample platform *)

Lemma strip_stars_idempotent (s : string) :
  strip_stars (strip_stars s) = strip_stars s.
Proof.
  induction s as [| c s IH]; [reflexivity |].
  cbn [strip_stars]. destruct (Ascii.eqb c "*") eqn:E; [exact IH |].
  cbn [strip_stars]. now rewrite E, IH.
Qed.

Lemma sample_clean_text_idempotent (t : option string) :
  sample_clean_text (Some (sample_clean_text t)) = sample_clean_text t.
Proof.
  destruct t as [s |]; [apply strip_stars_idempotent | reflexivity].
Qed.

Lemma allowlist_entries_ignored_witness :
  chat_ids (config (sample_service "42")) <> EmptyString
  /\ chat_ids (config (sample_service "7,8,9")) <> EmptyString
  /\ limit_exceeded (sample_service "42") (sample_context 12 [0%nat])
     = limit_exceeded (sample_service "7,8,9") (sample_context 12 [0%nat]).
Proof.
  assert (H1 : chat_ids (config (sample_service "42")) <> EmptyString)
    by discriminate.
  assert (H2 : chat_ids (config (sample_service "7,8,9")) <> EmptyString)
    by discriminate.
  split; [exact H1 |]. split; [exact H2 |].
  exact (@allowlist_entries_ignored (sample_service "42")
           (sample_service "7,8,9") (sample_context 12 [0%nat]) H1 H2).
Defined.

Lemma notice_stops_at_failing_callback_witness :
  run_agent sample_clean_text sample_speech_run sample_agent_steps
            (sample_service "42") sample_agent
            (mkContext (history 12)
               (map transport_emit [0%nat]
                ++ failing_emit (ToolError "transport down")
                   :: [transport_emit 1])
               sample_metadata)
  = ([Emit 0 limit_notice sample_metadata],
     inl (ToolError "transport down")).
Proof.
  assert (H1 : chat_ids (config (sample_service "42")) <> EmptyString)
    by discriminate.
  assert (H2 : (10 < length (history 12))%nat) by (simpl; lia).
  exact (@notice_stops_at_failing_callback
           sample_clean_text sample_speech_run sample_agent_steps
           (sample_service "42") sample_agent (history 12) [0%nat]
           (ToolError "transport down") [transport_emit 1] sample_metadata
           H1 H2).
Defined.

Lemma non_text_batch_unbatched_witness :
  wrap_emit sample_clean_text sample_speech_run (Some sample_tool)
            (sample_context 2 [0%nat]) (transport_emit 0)
            [image_block "a.png"; image_block "b.png"] sample_metadata
  = ([Emit 0 [image_block "a.png"] sample_metadata;
      Emit 0 [image_block "b.png"] sample_metadata], inr tt).
Proof.
  exact (@non_text_batch_unbatched
           sample_clean_text sample_speech_run (Some sample_tool)
           (sample_context 2 [0%nat]) 0%nat sample_metadata
           [image_block "a.png"; image_block "b.png"] eq_refl).
Defined.

Lemma speech_failure_propagates_witness :
  wrap_emit sample_clean_text failing_speech_run (Some sample_tool)
            (sample_context 2 [0%nat]) (transport_emit 0)
            [image_block "a.png"; text_block "hello"; text_block "bye"]
            sample_metadata
  = ([Emit 0 [image_block "a.png"] sample_metadata;
      Emit 0 [text_block "hello"] sample_metadata],
     inl (ToolError "speech generation failed")).
Proof.
  assert (Hc : sample_clean_text (text (text_block "hello")) <> EmptyString)
    by discriminate.
  exact (@speech_failure_propagates
           sample_clean_text failing_speech_run sample_tool
           (sample_context 2 [0%nat]) (transport_emit 0) sample_metadata
           [image_block "a.png"] [text_block "bye"] (text_block "hello")
           (ToolError "speech generation failed") eq_refl Hc eq_refl).
Defined.

Lemma speech_empty_answer_raises_witness :
  wrap_emit sample_clean_text silent_speech_run (Some sample_tool)
            (sample_context 2 [0%nat]) (transport_emit 0)
            [text_block "hello"; text_block "bye"] sample_metadata
  = ([Emit 0 [text_block "hello"] sample_metadata], inl IndexError).
Proof.
  assert (Hc : sample_clean_text (text (text_block "hello")) <> EmptyString)
    by discriminate.
  exact (@speech_empty_answer_raises
           sample_clean_text silent_speech_run sample_tool
           (sample_context 2 [0%nat]) (transport_emit 0) sample_metadata
           [] [text_block "bye"] (text_block "hello") eq_refl Hc eq_refl).
Defined.

Lemma wrapped_batch_calls_witness :
  wrap_emit sample_clean_text sample_speech_run (Some sample_tool)
            (sample_context 2 [0%nat]) (transport_emit 0)
            [text_block "hello **there**"; image_block "cat.png";
             text_block "**"]
            sample_metadata
  = ([Emit 0 [text_block "hello there"] sample_metadata;
      Emit 0 [set_public_data (sample_audio "hello there") true]
           sample_metadata;
      Emit 0 [image_block "cat.png"] sample_metadata], inr tt).
Proof.
  assert (Hs : forall b, exists more,
               sample_speech_run sample_tool [b]
                 (chat_history_messages (sample_context 2 [0%nat]))
                 (metadata (sample_context 2 [0%nat]))
               = inr (sample_audio_of b :: more))
    by (intros b; exists []; reflexivity).
  exact (@wrapped_batch_calls
           sample_clean_text sample_speech_run sample_tool
           (sample_context 2 [0%nat]) sample_audio_of 0%nat sample_metadata
           [text_block "hello **there**"; image_block "cat.png";
            text_block "**"] sample_clean_text_idempotent Hs).
Defined.

Lemma chat_prompt_appends_exchange_witness :
  chat_page sample_invoke sample_get_api_key sample_st_image
            sample_instance (say "hi")
            (sample_session (Some [assistant_says "Hello!"]))
  = (sample_session (Some [assistant_says "Hello!"; user_says "hi";
                           assistant_says "You said: hi"]),
     [ShowButton "+ New bot"; ShowHeader "Start chatting with Sacha";
      ShowChat "assistant" "Hello!"; ShowChat "user" "hi";
      CallInvoke sample_instance "hi"; ShowChat "assistant" "You said: hi"],
     inr tt).
Proof.
  assert (Hp : "hi" <> EmptyString) by discriminate.
  assert (Hi : opens sample_st_image (Some EmptyString))
    by (intros H; discriminate H).
  exact (@chat_prompt_appends_exchange
           sample_invoke sample_get_api_key sample_st_image
           sample_instance (say "hi")
           (sample_session (Some [assistant_says "Hello!"]))
           "Sacha" "hi" "You said: hi" [assistant_says "Hello!"] []
           eq_refl eq_refl Hi eq_refl eq_refl Hp eq_refl eq_refl).
Defined.

Lemma failed_answer_leaves_prompt_witness :
  chat_page failing_invoke sample_get_api_key sample_st_image
            sample_instance (say "hi")
            (sample_session (Some [assistant_says "Hello!"]))
  = (sample_session (Some [assistant_says "Hello!"; user_says "hi"]),
     [ShowButton "+ New bot"; ShowHeader "Start chatting with Sacha";
      ShowChat "assistant" "Hello!"; ShowChat "user" "hi";
      CallInvoke sample_instance "hi"],
     inl (Raised (ToolError "invoke failed"))).
Proof.
  assert (Hp : "hi" <> EmptyString) by discriminate.
  assert (Hi : opens sample_st_image (Some EmptyString))
    by (intros H; discriminate H).
  exact (@failed_answer_leaves_prompt
           failing_invoke sample_get_api_key sample_st_image
           sample_instance (say "hi")
           (sample_session (Some [assistant_says "Hello!"]))
           "Sacha" "hi" (ToolError "invoke failed")
           [assistant_says "Hello!"] []
           eq_refl eq_refl Hi eq_refl eq_refl Hp eq_refl eq_refl).
Defined.

Lemma chat_without_prompt_witness :
  chat_page sample_invoke sample_get_api_key sample_st_image sample_instance
            {| new_bot_clicked := false; chat_input := Some "" |}
            (sample_session (Some [assistant_says "Hello!"]))
  = (sample_session (Some [assistant_says "Hello!"]),
     [ShowButton "+ New bot"; ShowHeader "Start chatting with Sacha";
      ShowChat "assistant" "Hello!"],
     inr tt).
Proof.
  assert (Hi : opens sample_st_image (Some EmptyString))
    by (intros H; discriminate H).
  exact (@chat_without_prompt
           sample_invoke sample_get_api_key sample_st_image sample_instance
           {| new_bot_clicked := false; chat_input := Some "" |}
           (sample_session (Some [assistant_says "Hello!"]))
           "Sacha" [assistant_says "Hello!"]
           eq_refl eq_refl Hi eq_refl eq_refl).
Defined.

Lemma new_bot_keeps_transcript_witness :
  chat_page sample_invoke sample_get_api_key sample_st_image
            sample_instance press_new_bot
            (sample_session (Some [assistant_says "Hello!"; user_says "hi"]))
  = ({| instance := None;
        companion_profile_img := Some "";
        companion_first_message := Some "Hello!";
        messages := Some [assistant_says "Hello!"; user_says "hi"] |},
     [ShowButton "+ New bot"], inl Rerun).
Proof.
  exact (@new_bot_keeps_transcript
           sample_invoke sample_get_api_key sample_st_image
           sample_instance press_new_bot
           (sample_session (Some [assistant_says "Hello!"; user_says "hi"]))
           "Sacha" eq_refl eq_refl).
Defined.

Lemma missing_name_blocks_page_witness :
  page sample_to_snake sample_get_instance sample_add_resource
       sample_invoke sample_get_api_key sample_st_image
       sample_form press_new_bot
       (with_instance empty_session (Some nameless_instance))
  = (with_instance empty_session (Some nameless_instance), [],
     inl (Raised (KeyError "name"))).
Proof.
  exact (@missing_name_blocks_page
           sample_to_snake sample_get_instance sample_add_resource
           sample_invoke sample_get_api_key sample_st_image
           nameless_instance sample_form press_new_bot
           (with_instance empty_session (Some nameless_instance))
           eq_refl eq_refl).
Defined.


Lemma created_companion_greets_witness :
  page sample_to_snake sample_get_instance sample_add_resource
       sample_invoke sample_get_api_key sample_st_image sample_form no_input
       (state_after
          (page sample_to_snake sample_get_instance sample_add_resource
                sample_invoke sample_get_api_key sample_st_image
                sample_form no_input)
          empty_session)
  = (sample_session (Some [assistant_says "Hello!"]),
     [ShowButton "+ New bot"; ShowHeader "Start chatting with Sacha";
      ShowChat "assistant" "Hello!"],
     inr tt).
Proof.
  assert (Hi : opens sample_st_image (Some (profile_picture sample_form)))
    by (intros H; discriminate H).
  exact (@created_companion_greets
           sample_to_snake sample_get_instance sample_add_resource
           sample_invoke sample_get_api_key sample_st_image
           sample_form sample_form
           no_input no_input empty_session sample_instance "Sacha"
           eq_refl eq_refl eq_refl eq_refl eq_refl Hi eq_refl eq_refl).
Defined.

Lemma new_companion_inherits_transcript_witness :
  let old_talk := [assistant_says "Hello!"; user_says "hi";
                   assistant_says "You said: hi"] in
  let script := page sample_to_snake sample_get_instance sample_add_resource
                     sample_invoke sample_get_api_key sample_st_image in
  let left := state_after (script sample_form press_new_bot)
                          (sample_session (Some old_talk)) in
  let created := state_after (script other_form no_input) left in
  instance created = Some other_instance
  /\ companion_first_message created = Some "Hi, I am Robin."
  /\ script other_form no_input created
     = (created,
        [ShowButton "+ New bot"; ShowHeader "Start chatting with Robin";
         ShowImage "https://example.org/robin.png";
         ShowChat "assistant" "Hello!";
         ShowChat "user" "hi"; ShowChat "assistant" "You said: hi"],
        inr tt).
Proof.
  intros old_talk script left created.
  assert (Hi : opens sample_st_image (Some (profile_picture other_form)))
    by (intros _; reflexivity).
  destruct (@new_companion_inherits_transcript
              sample_to_snake sample_get_instance sample_add_resource
              sample_invoke sample_get_api_key sample_st_image
              sample_form other_form
              other_form no_input press_new_bot no_input
              (sample_session (Some old_talk)) sample_instance other_instance
              "Sacha" "Robin" old_talk
              eq_refl eq_refl eq_refl eq_refl eq_refl eq_refl eq_refl
              Hi eq_refl eq_refl) as (_ & Hc & Hf & Hs).
  split; [exact Hc |]. split; [exact Hf |]. exact Hs.
Defined.

Lemma chat_session_transcript_witness :
  messages (chat_session sample_invoke sample_get_api_key sample_st_image
                         sample_instance
                         [say "hi"; no_input; say "more"]
                         (sample_session None))
  = Some [assistant_says "Hello!";
          user_says "hi"; assistant_says "You said: hi";
          user_says "more"; assistant_says "You said: more"].
Proof.
  assert (Hk : forall s, exists l, sample_get_api_key s = (s, l, inr tt))
    by (intros s; exists []; reflexivity).
  assert (Hr : forall p, sample_invoke sample_instance p
                         = inr (sample_answer p))
    by (intros p; reflexivity).
  assert (Ha : Forall (fun i => new_bot_clicked i = false)
                      [say "hi"; no_input; say "more"])
    by (repeat constructor).
  assert (Hi : opens sample_st_image (Some EmptyString))
    by (intros H; discriminate H).
  exact (@chat_session_transcript
           sample_invoke sample_get_api_key sample_st_image
           sample_instance "Sacha" "Hello!"
           sample_answer (say "hi") [no_input; say "more"]
           (sample_session None) eq_refl Hk Hr Ha Hi eq_refl eq_refl).
Defined.
